(** * Drawpile: join synchronisation on the client, admission and the
      administrative API on the server

    A shallow embedding of two translation units of Drawpile:

    - [src/client/sessionstate.cpp] ([network::SessionState]): the client's
      view of one session.  It receives the raster snapshot in chunks,
      buffers the drawing commands that arrive meanwhile and replays them
      when the snapshot is complete; it also uploads a raster when this
      client is the snapshot provider.
    - [src/server/multiserver.cpp] ([server::MultiServer]): the listener.
      It rejects banned peers, implements the stop / auto-stop life cycle
      and serves the [server] and [banlist] resources of the JSON API.

    Member variables become record fields with the source's names, a method
    becomes a function from the object's state to its new state, and what a
    method does to the outside world (Qt signals, messages handed to the
    network, [delete]) is appended to a trace carried by the state.
    Classes whose code is not part of these files (the session registry,
    the configuration store, Qt's parsers and decoders) are interfaces,
    given as classes of operations or as Section variables: the theorems
    hold for every implementation of them. *)

From Stdlib Require Import ZArith List Strings.Byte Strings.Ascii.
From Stdlib Require QArith.
From stdpp Require Import gmap strings list pretty.

Local Open Scope Z_scope.

(** Unsigned 32-bit arithmetic wraps around. *)
Definition u32 (z : Z) : Z := z mod 2 ^ 32.

(** [(signed short)] applied to a 16-bit unsigned value. *)
Definition to_short (z : Z) : Z :=
  let w := z mod 2 ^ 16 in if w <? 2 ^ 15 then w else w - 2 ^ 16.

(** [QByteArray]: a sequence of bytes. *)
Abbreviation QByteArray := (list byte).

(** [QByteArray(data, size)]: the first [size] bytes at [data]. *)
Definition mkByteArray (data : list byte) (size : Z) : QByteArray :=
  take (Z.to_nat size) data.

(** [x / 255.0] for an 8-bit [x], kept as the exact fraction. *)
Definition over255 (x : Z) : QArith_base.Q := QArith_base.Qmake x 255.

(* ================================================================== *)
(** * The client: [network::SessionState] *)
(* ================================================================== *)

Module Client.

(** ** Protocol messages (declared in [shared/protocol.h]) *)

Record ToolInfo := {
  ti_session_id : Z;
  ti_user_id : Z;
  tool_id : Z;
  mode : Z;
  lo_color : Z * Z * Z * Z;
  hi_color : Z * Z * Z * Z;
  lo_size : Z;
  hi_size : Z;
  lo_hardness : Z;
  hi_hardness : Z
}.

Record StrokeInfo := {
  si_session_id : Z;
  si_user_id : Z;
  si_x : Z;
  si_y : Z;
  si_pressure : Z
}.

Record StrokeEnd := {
  se_session_id : Z;
  se_user_id : Z
}.

Record Raster := {
  r_session_id : Z;
  r_offset : Z;
  r_length : Z;
  r_size : Z;
  r_data : list byte
}.

(** The values of [Acknowledgement::event] the session looks at. *)
Inductive AckEvent :=
| AckSyncWait | AckSessionSelect | AckRaster | AckOther (code : Z).

(** [protocol::user_event]. *)
Inductive UserEvent :=
| Join | Leave | Disconnect | BrokenPipe | TimedOut | Dropped | Kicked
| UserEventOther (code : Z).

Record UserInfo := {
  ui_user_id : Z;
  ui_event : UserEvent;
  ui_mode : Z;
  ui_name : string
}.

(** [protocol::session_event]. *)
Inductive SessionAction :=
| Lock | Unlock | Kick | Delegate | ActionOther (code : Z).

Record SessionEvent := {
  sev_action : SessionAction;
  sev_target : Z
}.

Record Chat := {
  c_user_id : Z;
  c_length : Z;
  c_data : list byte
}.

(** The drawing commands are kept in the draw buffer as
    [protocol::Message*]; the flush tells them apart by [msg->type]. *)
Inductive Message :=
| MToolInfo (m : ToolInfo)
| MStrokeInfo (m : StrokeInfo)
| MStrokeEnd (m : StrokeEnd).

Inductive MessageType := TypeToolInfo | TypeStrokeInfo | TypeStrokeEnd.

Definition type (msg : Message) : MessageType :=
  match msg with
  | MToolInfo _ => TypeToolInfo
  | MStrokeInfo _ => TypeStrokeInfo
  | MStrokeEnd _ => TypeStrokeEnd
  end.

(** ** Values handed to the drawing board *)

(** [drawingboard::Brush]: radius, hardness, opacity and colour at full
    pressure (1) and at zero pressure (2). *)
Record Brush := {
  radius1 : Z; hardness1 : QArith_base.Q; opacity1 : QArith_base.Q;
  color1 : Z * Z * Z;
  radius2 : Z; hardness2 : QArith_base.Q; opacity2 : QArith_base.Q;
  color2 : Z * Z * Z
}.

(** [drawingboard::Point]. *)
Record Point := {
  px : Z; py : Z; ppressure : QArith_base.Q
}.

(** ** Session data *)

Record User := {
  u_name : string;
  u_id : Z;
  u_locked : bool
}.

Definition setLocked (l : bool) (u : User) : User :=
  {| u_name := u_name u; u_id := u_id u; u_locked := l |}.

(** [network::Session], the fields this class reads or writes. *)
Record Session := {
  s_id : Z;
  s_owner : Z;
  s_maxusers : Z;
  s_mode : Z
}.

Definition setOwner (o : Z) (i : Session) : Session :=
  {| s_id := s_id i; s_owner := o; s_maxusers := s_maxusers i;
     s_mode := s_mode i |}.

(** ** Observable effects *)

Inductive Signal :=
| userLimitChanged (n : Z)
| rasterSent (percent : Z)
| rasterReceived (percent : Z)
| syncDone
| syncRequest
| syncWait
| userJoined (id : Z)
| userLeft (id : Z)
| userLocked (id : Z) (l : bool)
| sessionLocked (l : bool)
| userKicked (id : Z)
| ownerChanged
| toolReceived (user : Z) (b : Brush)
| strokeReceived (user : Z) (p : Point)
| strokeEndReceived (user : Z)
| chatMessage (name : string) (text : QByteArray).

(** What leaves the object: an emitted signal, a raster message handed to
    [host_->net_->send], or a drawing message released with [delete]. *)
Inductive Event :=
| Emit (s : Signal)
| SendRaster (session_id offset length size : Z) (data : QByteArray)
| Delete (msg : Message).

(** ** The object *)

Record SessionState := {
  info_ : Session;
  users_ : gmap Z User;
  raster_ : QByteArray;
  rasteroffset_ : Z;
  lock_ : bool;
  bufferdrawing_ : bool;
  drawbuffer_ : list Message;
  (** [host_->usersessions_] *)
  usersessions_ : gmap Z Z;
  (** everything emitted, sent or deleted so far, oldest first *)
  trace : list Event
}.

Definition with_info (i : Session) (st : SessionState) : SessionState :=
  {| info_ := i; users_ := users_ st; raster_ := raster_ st;
     rasteroffset_ := rasteroffset_ st; lock_ := lock_ st;
     bufferdrawing_ := bufferdrawing_ st; drawbuffer_ := drawbuffer_ st;
     usersessions_ := usersessions_ st; trace := trace st |}.

Definition with_users (u : gmap Z User) (st : SessionState) : SessionState :=
  {| info_ := info_ st; users_ := u; raster_ := raster_ st;
     rasteroffset_ := rasteroffset_ st; lock_ := lock_ st;
     bufferdrawing_ := bufferdrawing_ st; drawbuffer_ := drawbuffer_ st;
     usersessions_ := usersessions_ st; trace := trace st |}.

Definition with_raster (r : QByteArray) (st : SessionState) : SessionState :=
  {| info_ := info_ st; users_ := users_ st; raster_ := r;
     rasteroffset_ := rasteroffset_ st; lock_ := lock_ st;
     bufferdrawing_ := bufferdrawing_ st; drawbuffer_ := drawbuffer_ st;
     usersessions_ := usersessions_ st; trace := trace st |}.

Definition with_rasteroffset (o : Z) (st : SessionState) : SessionState :=
  {| info_ := info_ st; users_ := users_ st; raster_ := raster_ st;
     rasteroffset_ := o; lock_ := lock_ st;
     bufferdrawing_ := bufferdrawing_ st; drawbuffer_ := drawbuffer_ st;
     usersessions_ := usersessions_ st; trace := trace st |}.

Definition with_lock (l : bool) (st : SessionState) : SessionState :=
  {| info_ := info_ st; users_ := users_ st; raster_ := raster_ st;
     rasteroffset_ := rasteroffset_ st; lock_ := l;
     bufferdrawing_ := bufferdrawing_ st; drawbuffer_ := drawbuffer_ st;
     usersessions_ := usersessions_ st; trace := trace st |}.

Definition with_bufferdrawing (b : bool) (st : SessionState) : SessionState :=
  {| info_ := info_ st; users_ := users_ st; raster_ := raster_ st;
     rasteroffset_ := rasteroffset_ st; lock_ := lock_ st;
     bufferdrawing_ := b; drawbuffer_ := drawbuffer_ st;
     usersessions_ := usersessions_ st; trace := trace st |}.

Definition with_drawbuffer (q : list Message) (st : SessionState) : SessionState :=
  {| info_ := info_ st; users_ := users_ st; raster_ := raster_ st;
     rasteroffset_ := rasteroffset_ st; lock_ := lock_ st;
     bufferdrawing_ := bufferdrawing_ st; drawbuffer_ := q;
     usersessions_ := usersessions_ st; trace := trace st |}.

Definition with_usersessions (m : gmap Z Z) (st : SessionState) : SessionState :=
  {| info_ := info_ st; users_ := users_ st; raster_ := raster_ st;
     rasteroffset_ := rasteroffset_ st; lock_ := lock_ st;
     bufferdrawing_ := bufferdrawing_ st; drawbuffer_ := drawbuffer_ st;
     usersessions_ := m; trace := trace st |}.

Definition record (e : Event) (st : SessionState) : SessionState :=
  {| info_ := info_ st; users_ := users_ st; raster_ := raster_ st;
     rasteroffset_ := rasteroffset_ st; lock_ := lock_ st;
     bufferdrawing_ := bufferdrawing_ st; drawbuffer_ := drawbuffer_ st;
     usersessions_ := usersessions_ st; trace := trace st ++ [e] |}.

Definition emit (s : Signal) : SessionState -> SessionState := record (Emit s).

(** [drawbuffer_.enqueue(msg)] *)
Definition enqueue (msg : Message) (st : SessionState) : SessionState :=
  with_drawbuffer (drawbuffer_ st ++ [msg]) st.

(** ** Drawing commands *)

(** The brush [handleToolInfo] builds from a [ToolInfo] message. *)
Definition brushOf (msg : ToolInfo) : Brush :=
  let '(hr, hg, hb, ha) := hi_color msg in
  let '(lr, lg, lb, la) := lo_color msg in
  {| radius1 := hi_size msg;
     hardness1 := over255 (hi_hardness msg);
     opacity1 := over255 ha;
     color1 := (hr, hg, hb);
     radius2 := lo_size msg;
     hardness2 := over255 (lo_hardness msg);
     opacity2 := over255 la;
     color2 := (lr, lg, lb) |}.

Definition pointOf (msg : StrokeInfo) : Point :=
  {| px := to_short (si_x msg);
     py := to_short (si_y msg);
     ppressure := over255 (si_pressure msg) |}.

(** Each handler returns [true] when the message was buffered (the caller
    must not delete it) and [false] when it was applied. *)
Definition handleToolInfo (msg : ToolInfo) (st : SessionState)
  : bool * SessionState :=
  if bufferdrawing_ st then (true, enqueue (MToolInfo msg) st)
  else (false, emit (toolReceived (ti_user_id msg) (brushOf msg)) st).

Definition handleStrokeInfo (msg : StrokeInfo) (st : SessionState)
  : bool * SessionState :=
  if bufferdrawing_ st then (true, enqueue (MStrokeInfo msg) st)
  else (false, emit (strokeReceived (si_user_id msg) (pointOf msg)) st).

Definition handleStrokeEnd (msg : StrokeEnd) (st : SessionState)
  : bool * SessionState :=
  if bufferdrawing_ st then (true, enqueue (MStrokeEnd msg) st)
  else (false, emit (strokeEndReceived (se_user_id msg)) st).

(** The dispatch on [msg->type] inside [flushDrawBuffer]: [StrokeInfo],
    then [StrokeEnd], everything else is taken for a [ToolInfo]. *)
Definition handleBuffered (msg : Message) (st : SessionState)
  : bool * SessionState :=
  match msg with
  | MStrokeInfo m => handleStrokeInfo m st
  | MStrokeEnd m => handleStrokeEnd m st
  | MToolInfo m => handleToolInfo m st
  end.

(** The [while] loop of [flushDrawBuffer].  One unit of [fuel] pays for one
    iteration; [None] means the fuel ran out with the queue still
    non-empty.  The handlers run on the state in which the message has
    already been dequeued, and nothing here looks at [bufferdrawing_]: a
    handler called while the flag is set puts the message back. *)
Fixpoint drainLoop (fuel : nat) (st : SessionState) : option SessionState :=
  match drawbuffer_ st with
  | [] => Some st
  | msg :: rest =>
      match fuel with
      | O => None
      | S fuel' =>
          let st1 := with_drawbuffer rest st in
          let st2 := snd (handleBuffered msg st1) in
          drainLoop fuel' (record (Delete msg) st2)
      end
  end.

Definition flushDrawBuffer (fuel : nat) (st : SessionState)
  : option SessionState :=
  drainLoop fuel (with_bufferdrawing false st).

(** ** Raster upload (this client is the snapshot provider) *)

Definition isUploading (st : SessionState) : bool :=
  (0 <? Z.of_nat (length (raster_ st))) && (0 <? rasteroffset_ st).

Definition releaseRaster (st : SessionState) : SessionState :=
  with_raster [] st.

(** [rasteroffset_] and [chunklen] are [unsigned int]s, so the sums and the
    difference wrap.  The [memcpy] reads [chunklen] bytes at
    [raster_.constData()+rasteroffset_]: when that range does not lie
    inside the buffer the behaviour is undefined and the model returns
    [None]. *)
Definition sendRasterChunk (st : SessionState) : option SessionState :=
  let len := Z.of_nat (length (raster_ st)) in
  let chunklen := 1024 * 4 in
  let chunklen :=
    if u32 len <? u32 (rasteroffset_ st + chunklen)
    then u32 (len - rasteroffset_ st) else chunklen in
  if chunklen =? 0 then
    Some (releaseRaster (with_rasteroffset 0 st))
  else if rasteroffset_ st + chunklen <=? len then
    let data :=
      take (Z.to_nat chunklen) (drop (Z.to_nat (rasteroffset_ st)) (raster_ st)) in
    let msg :=
      SendRaster (s_id (info_ st)) (rasteroffset_ st) chunklen len data in
    let st1 := with_rasteroffset (u32 (rasteroffset_ st + chunklen)) st in
    let st2 := record msg st1 in
    Some (emit (rasterSent (u32 (100 * rasteroffset_ st2) / len)) st2)
  else None.

Definition sendRaster (raster : QByteArray) (st : SessionState)
  : option SessionState :=
  sendRasterChunk (with_rasteroffset 0 (with_raster raster st)).

(** ** Handlers of received messages *)

Definition handleAck (event : AckEvent) (st : SessionState)
  : option SessionState :=
  match event with
  | AckSyncWait => Some (emit syncDone st)
  | AckSessionSelect => Some st
  | AckRaster => sendRasterChunk st
  | AckOther _ => Some st
  end.

(** [fuel] bounds the iterations of the flush, see [drainLoop]. *)
Definition handleRaster (fuel : nat) (msg : Raster) (st : SessionState)
  : option SessionState :=
  if r_size msg =? 0 then
    flushDrawBuffer fuel (emit (rasterReceived 100) st)
  else
    let st1 := if r_offset msg =? 0 then with_raster [] st else st in
    let st2 :=
      with_raster (raster_ st1 ++ mkByteArray (r_data msg) (r_length msg)) st1 in
    let received := u32 (r_offset msg + r_length msg) in
    if received <? r_size msg then
      Some (emit (rasterReceived (u32 (99 * received) / r_size msg)) st2)
    else
      flushDrawBuffer fuel (emit (rasterReceived 100) st2).

Definition handleSynchronize (st : SessionState) : SessionState :=
  emit syncRequest st.

Definition handleSyncWait (st : SessionState) : SessionState :=
  emit syncWait st.

Definition handleChat (msg : Chat) (st : SessionState) : SessionState :=
  let name :=
    match users_ st !! c_user_id msg with
    | Some u => u_name u
    | None => "<unknown>"%string
    end in
  emit (chatMessage name (mkByteArray (c_data msg) (c_length msg))) st.

Section Constants.

(** Constants of the protocol headers, which are not part of this file:
    [protocol::null_user], and the test
    [fIsSet(mode, protocol::user_mode::Locked)]. *)
Variable null_user : Z.
Variable isLockedMode : Z -> bool.

(** The constructor: the local user is the first member, nothing has been
    received and drawing commands are buffered. *)
Definition newSessionState (localname : string) (localid : Z) (info : Session)
  : SessionState :=
  {| info_ := info;
     users_ :=
       {[ localid :=
            {| u_name := localname; u_id := localid;
               u_locked := isLockedMode (s_mode info) |} ]};
     raster_ := [];
     rasteroffset_ := 0;
     lock_ := false;
     bufferdrawing_ := true;
     drawbuffer_ := [];
     usersessions_ := ∅;
     trace := [] |}.

Definition handleUserInfo (msg : UserInfo) (st : SessionState) : SessionState :=
  let id := ui_user_id msg in
  match ui_event msg with
  | Join =>
      let u := {| u_name := ui_name msg; u_id := id;
                  u_locked := isLockedMode (ui_mode msg) |} in
      emit (userJoined id) (with_users (<[id := u]> (users_ st)) st)
  | Leave | Disconnect | BrokenPipe | TimedOut | Dropped | Kicked =>
      let st1 :=
        match users_ st !! id with
        | Some _ => with_users (delete id (users_ st)) (emit (userLeft id) st)
        | None => st
        end in
      with_usersessions (delete id (usersessions_ st1)) st1
  | UserEventOther _ => st
  end.

Definition handleSessionEvent (msg : SessionEvent) (st : SessionState)
  : SessionState :=
  let target := sev_target msg in
  let known := bool_decide (is_Some (users_ st !! target)) in
  if negb (target =? null_user) && negb known then st
  else
    (* [user] is null exactly when the target is [null_user] *)
    let has_user := negb (target =? null_user) in
    match sev_action msg with
    | Lock =>
        if has_user then
          emit (userLocked target true)
            (with_users (alter (setLocked true) target (users_ st)) st)
        else emit (sessionLocked true) (with_lock true st)
    | Unlock =>
        if has_user then
          emit (userLocked target false)
            (with_users (alter (setLocked false) target (users_ st)) st)
        else emit (sessionLocked false) (with_lock false st)
    | Kick => emit (userKicked target) st
    | Delegate => emit ownerChanged (with_info (setOwner target (info_ st)) st)
    | ActionOther _ => st
    end.

(** ** Messages as they arrive *)

Inductive Received :=
| RecvAck (event : AckEvent)
| RecvUserInfo (msg : UserInfo)
| RecvRaster (msg : Raster)
| RecvSynchronize
| RecvSyncWait
| RecvSessionEvent (msg : SessionEvent)
| RecvChat (msg : Chat)
| RecvDrawing (msg : Message).

(** What a handler of a drawing command tells its caller to do with the
    message: keep it when it was buffered, [delete] it otherwise. *)
Definition afterDrawing (msg : Message) (r : bool * SessionState)
  : SessionState :=
  if fst r then snd r else record (Delete msg) (snd r).

(** Modelled from the spec: the dispatch of a received session message to
    the handler for its type, which is code of [HostState] and is not in
    this file.  The spec has every operation broadcast to the member
    reach it in order; the handlers' [@retval] documentation has the
    caller [delete] a drawing message unless the handler kept it. *)
Definition receive (fuel : nat) (msg : Received) (st : SessionState)
  : option SessionState :=
  match msg with
  | RecvAck e => handleAck e st
  | RecvUserInfo m => Some (handleUserInfo m st)
  | RecvRaster m => handleRaster fuel m st
  | RecvSynchronize => Some (handleSynchronize st)
  | RecvSyncWait => Some (handleSyncWait st)
  | RecvSessionEvent m => Some (handleSessionEvent m st)
  | RecvChat m => Some (handleChat m st)
  | RecvDrawing (MToolInfo m) =>
      Some (afterDrawing (MToolInfo m) (handleToolInfo m st))
  | RecvDrawing (MStrokeInfo m) =>
      Some (afterDrawing (MStrokeInfo m) (handleStrokeInfo m st))
  | RecvDrawing (MStrokeEnd m) =>
      Some (afterDrawing (MStrokeEnd m) (handleStrokeEnd m st))
  end.

Fixpoint receiveAll (fuel : nat) (msgs : list Received) (st : SessionState)
  : option SessionState :=
  match msgs with
  | [] => Some st
  | msg :: rest =>
      match receive fuel msg st with
      | Some st' => receiveAll fuel rest st'
      | None => None
      end
  end.

End Constants.

(** ** The received picture *)

Section Image.

(** [QImage::loadFromData] is Qt's decoder.  [Picture] stands for the
    images it can produce; a [QImage] is such a picture or the null
    image. *)
Variable Picture : Type.
Variable loadFromData : QByteArray -> option Picture.

Definition QImage : Type := option Picture.

(** The null image, [QImage()]. *)
Definition nullImage : QImage := None.

(** [sessionImage(image)]: the return value and the new content of the
    out-parameter. *)
Definition sessionImage (st : SessionState) (image : QImage) : bool * QImage :=
  match raster_ st with
  | [] => (true, nullImage)
  | _ :: _ =>
      match loadFromData (raster_ st) with
      | None => (false, image)
      | Some img => (true, Some img)
      end
  end.

End Image.

(** ** Vocabulary of the statements *)

(** The signal with which a drawing command is applied. *)
Definition signalOf (msg : Message) : Signal :=
  match msg with
  | MToolInfo m => toolReceived (ti_user_id m) (brushOf m)
  | MStrokeInfo m => strokeReceived (si_user_id m) (pointOf m)
  | MStrokeEnd m => strokeEndReceived (se_user_id m)
  end.

(** Applying and releasing a sequence of drawing commands, one after the
    other. *)
Definition replay (msgs : list Message) : list Event :=
  flat_map (fun msg => [Emit (signalOf msg); Delete msg]) msgs.

(** The events that apply a drawing command. *)
Definition isApplication (e : Event) : bool :=
  match e with
  | Emit (toolReceived _ _) | Emit (strokeReceived _ _)
  | Emit (strokeEndReceived _) => true
  | _ => false
  end.

(** A raster message that ends the transfer: the zero-size message, or the
    chunk that reaches the announced size. *)
Definition completes (msg : Raster) : bool :=
  (r_size msg =? 0) || negb (u32 (r_offset msg + r_length msg) <? r_size msg).

(** The messages after which the member is still waiting for the end of
    the snapshot: everything but a completing raster message.  A raster
    acknowledgement is left out as well, it belongs to an upload. *)
Definition whileBuffering (msg : Received) : bool :=
  match msg with
  | RecvRaster m => negb (completes m)
  | RecvAck AckRaster => false
  | _ => true
  end.

(** The messages that store no raster data: all but the raster messages
    of nonzero size. *)
Definition storesNothing (msg : Received) : bool :=
  match msg with
  | RecvRaster m => r_size m =? 0
  | _ => true
  end.

(** The drawing commands among the received messages, in order. *)
Definition drawingOps (msgs : list Received) : list Message :=
  flat_map (fun msg => match msg with RecvDrawing m => [m] | _ => [] end) msgs.

(** Live: buffering is off and nothing is queued. *)
Definition live (st : SessionState) : Prop :=
  bufferdrawing_ st = false /\ drawbuffer_ st = [].

(** The state a flush ends in: buffering is off, the queue is empty and
    its content has been replayed. *)
Definition flushed (st : SessionState) : SessionState :=
  {| info_ := info_ st; users_ := users_ st; raster_ := raster_ st;
     rasteroffset_ := rasteroffset_ st; lock_ := lock_ st;
     bufferdrawing_ := false; drawbuffer_ := [];
     usersessions_ := usersessions_ st;
     trace := trace st ++ replay (drawbuffer_ st) |}.

End Client.

(* ================================================================== *)
(** * The server: [server::MultiServer] *)
(* ================================================================== *)

Module Server.

(** ** What the file uses of Qt *)

(** The value types of Qt that the JSON API passes around, with the
    conversions the source calls on them.  Their code belongs to Qt. *)
Class Qt := {
  QJsonValue : Type;
  QJsonArray : Type;
  QVariant : Type;
  QHostAddress : Type;
  QDateTime : Type;
  (** [QJsonValue::Undefined], what [request[key]] is for an absent key *)
  undefinedValue : QJsonValue;
  (** [value.toString()] *)
  toString : QJsonValue -> string;
  (** [value.toInt()] *)
  toInt : QJsonValue -> Z;
  (** [value.toVariant().toString()] *)
  variantToString : QJsonValue -> string;
  (** [QJsonValue::fromVariant(v)] *)
  fromVariant : QVariant -> QJsonValue;
  (** [QString::toInt()] *)
  stringToInt : string -> Z;
  (** [QHostAddress(string)] and [isNull()] *)
  hostAddress : string -> QHostAddress;
  addressIsNull : QHostAddress -> bool;
  (** [QDateTime::fromString(string, format)] and [isNull()] *)
  dateTimeFromString : string -> string -> QDateTime;
  dateTimeIsNull : QDateTime -> bool
}.

(** [QJsonObject]: a map from keys to values. *)
Abbreviation QJsonObject := (gmap string QJsonValue).

(** [object[key]] on a constant object. *)
Definition valueAt `{Qt} (object : QJsonObject) (key : string) : QJsonValue :=
  default undefinedValue (object !! key).

(** [object.contains(key)] *)
Definition contains `{Qt} (object : QJsonObject) (key : string) : bool :=
  bool_decide (is_Some (object !! key)).

Inductive QJsonDocument `{Qt} :=
| EmptyDocument
| ObjectDocument (object : QJsonObject)
| ArrayDocument (array : QJsonArray).

(** ** The JSON API vocabulary (declared in [shared/util/jsonapi.h]) *)

Inductive JsonApiMethod := Get | Create | Update | Delete.

Inductive Status := Ok | BadRequest | NotFound | BadMethod.

(** A [JsonApiResult], by the expression that builds it:
    [JsonApiResult { Ok, document }], [JsonApiErrorResult(status, message)],
    [JsonApiNotFound()] and [JsonApiBadMethod()]. *)
Inductive JsonApiResult `{Qt} :=
| JsonApiOk (body : QJsonDocument)
| JsonApiErrorResult (status : Status) (message : string)
| JsonApiNotFound
| JsonApiBadMethod.

(** Modelled from the spec: the status carried by the results of the
    helpers [JsonApiNotFound()] and [JsonApiBadMethod()], whose code is in
    [jsonapi.h].  The spec has unknown paths yield [NotFound] and
    unsupported verb and resource combinations yield [BadMethod]. *)
Definition status `{Qt} (r : JsonApiResult) : Status :=
  match r with
  | JsonApiOk _ => Ok
  | JsonApiErrorResult s _ => s
  | JsonApiNotFound => NotFound
  | JsonApiBadMethod => BadMethod
  end.

(** Modelled from the spec: [popApiPath] of [jsonapi.h], which splits a
    slash-delimited path, held as the list of its segments, into its first
    segment and the rest. *)
Definition popApiPath (path : list string) : string * list string :=
  match path with
  | [] => (""%string, [])
  | head :: tail => (head, tail)
  end.

(** ** The configuration store *)

(** The [config::] keys that [serverJsonApi] exposes. *)
Inductive ConfigKey :=
| ClientTimeout | SessionSizeLimit | SessionCountLimit | EnablePersistence
| IdleTimeLimit | ServerTitle | WelcomeMessage | AnnounceWhiteList
| LocalAddress | PrivateUserList | AllowGuests.

#[export] Instance ConfigKey_eq_dec : EqDecision ConfigKey.
Proof. solve_decision. Defined.

(** The interface of [ServerConfig] ([shared/server/serverconfig.h]) and of
    its subclass [Database] ([database.h]), as far as [MultiServer] calls
    it.  A method that changes the store returns the new store. *)
Class ServerConfigOps `{Qt} (ServerConfig : Type) := {
  (** [key.name] *)
  name : ConfigKey -> string;
  isAddressBanned : ServerConfig -> QHostAddress -> bool;
  setConfigString : ConfigKey -> string -> ServerConfig -> ServerConfig;
  getConfigVariant : ConfigKey -> ServerConfig -> QVariant;
  (** whether [qobject_cast<Database*>] yields an object *)
  isDatabase : ServerConfig -> bool;
  getBanlist : ServerConfig -> QJsonArray;
  addBan : QHostAddress -> Z -> QDateTime -> string -> ServerConfig ->
           QJsonObject * ServerConfig;
  deleteBan : Z -> ServerConfig -> bool * ServerConfig
}.

(** ** Connections and the session registry *)

(** A [QTcpSocket], known by its peer address. *)
Record QTcpSocket `{Qt} := { peerAddress : QHostAddress }.

(** [new Client(socket)] *)
Record Client `{Qt} := { socket : QTcpSocket }.

(** The interface of [SessionServer] ([shared/server/sessionserver.h]). *)
Class SessionServerOps `{Qt} (SessionServer : Type) := {
  sessionCount : SessionServer -> Z;
  totalUsers : SessionServer -> Z;
  addClient : Client -> SessionServer -> SessionServer;
  stopAll : SessionServer -> SessionServer;
  sessionsJsonApi : JsonApiMethod -> list string -> QJsonObject ->
                    SessionServer -> JsonApiResult * SessionServer
}.

(** [QTcpServer]: whether it listens, and the accepted connections that
    [nextPendingConnection] has not handed out yet. *)
Record QTcpServer `{Qt} := {
  listening : bool;
  pending : list QTcpSocket
}.

(** ** The object *)

Inductive State := NOT_STARTED | RUNNING | STOPPING | STOPPED.

#[export] Instance State_eq_dec : EqDecision State.
Proof. solve_decision. Defined.

(** What the server does to the outside. *)
Inductive Effect `{Qt} :=
| DisconnectKick (client : Client) (message : string)
| NotifyStatus (users sessions : Z)
| ServerStopped.

Section MultiServer.

Context `{Qt}.
Context {ServerConfig : Type} `{!ServerConfigOps ServerConfig}.
Context {SessionServer : Type} `{!SessionServerOps SessionServer}.

Record MultiServer := {
  m_config : ServerConfig;
  (** [nullptr] until [createServer] has run *)
  m_server : option QTcpServer;
  m_sessions : SessionServer;
  m_state : State;
  m_autoStop : bool;
  (** kicks, status notifications and [serverStopped], oldest first *)
  effects : list Effect
}.

Definition with_config (c : ServerConfig) (s : MultiServer) : MultiServer :=
  {| m_config := c; m_server := m_server s; m_sessions := m_sessions s;
     m_state := m_state s; m_autoStop := m_autoStop s; effects := effects s |}.

Definition with_server (q : option QTcpServer) (s : MultiServer) : MultiServer :=
  {| m_config := m_config s; m_server := q; m_sessions := m_sessions s;
     m_state := m_state s; m_autoStop := m_autoStop s; effects := effects s |}.

Definition with_sessions (r : SessionServer) (s : MultiServer) : MultiServer :=
  {| m_config := m_config s; m_server := m_server s; m_sessions := r;
     m_state := m_state s; m_autoStop := m_autoStop s; effects := effects s |}.

Definition with_state (t : State) (s : MultiServer) : MultiServer :=
  {| m_config := m_config s; m_server := m_server s; m_sessions := m_sessions s;
     m_state := t; m_autoStop := m_autoStop s; effects := effects s |}.

Definition setAutoStop (autostop : bool) (s : MultiServer) : MultiServer :=
  {| m_config := m_config s; m_server := m_server s; m_sessions := m_sessions s;
     m_state := m_state s; m_autoStop := autostop; effects := effects s |}.

Definition effect (e : Effect) (s : MultiServer) : MultiServer :=
  {| m_config := m_config s; m_server := m_server s; m_sessions := m_sessions s;
     m_state := m_state s; m_autoStop := m_autoStop s;
     effects := effects s ++ [e] |}.

(** ** Admission *)

Definition printStatusUpdate (s : MultiServer) : MultiServer :=
  effect (NotifyStatus (totalUsers (m_sessions s)) (sessionCount (m_sessions s))) s.

(** [newClient] is the slot of [QTcpServer::newConnection].  It
    dereferences [m_server] and the socket that [nextPendingConnection]
    returns; the result is [None] when either is null. *)
Definition newClient (s : MultiServer) : option MultiServer :=
  match m_server s with
  | None => None
  | Some srv =>
      match pending srv with
      | [] => None
      | sock :: rest =>
          let s1 :=
            with_server (Some {| listening := listening srv; pending := rest |}) s in
          let client := {| socket := sock |} in
          if isAddressBanned (m_config s1) (peerAddress sock) then
            Some (effect (DisconnectKick client "BANNED") s1)
          else
            Some (printStatusUpdate
                    (with_sessions (addClient client (m_sessions s1)) s1))
      end
  end.

(** ** Stopping *)

(** [m_server->close()] *)
Definition close (srv : QTcpServer) : QTcpServer :=
  {| listening := false; pending := pending srv |}.

(** [stop] dereferences [m_server] when the server is running: [None] when
    it is null. *)
Definition stop (s : MultiServer) : option MultiServer :=
  let stopping :=
    if decide (m_state s = RUNNING) then
      match m_server s with
      | None => None
      | Some srv =>
          let s1 := with_state STOPPING s in
          let s2 := with_server (Some (close srv)) s1 in
          Some (with_sessions (stopAll (m_sessions s2)) s2)
      end
    else Some s in
  match stopping with
  | None => None
  | Some s1 =>
      if decide (m_state s1 = STOPPING) then
        if totalUsers (m_sessions s1) =? 0 then
          Some (effect ServerStopped (with_state STOPPED s1))
        else Some s1
      else Some s1
  end.

Definition tryAutoStop (s : MultiServer) : option MultiServer :=
  if bool_decide (m_state s = RUNNING) && m_autoStop s
     && (sessionCount (m_sessions s) =? 0) && (totalUsers (m_sessions s) =? 0)
  then stop s
  else Some s.

(** The slots the constructor connects to the registry's signals:
    [sessionEnded] runs [tryAutoStop], [userDisconnected] runs the lambda. *)
Definition onSessionEnded (s : MultiServer) : option MultiServer :=
  tryAutoStop s.

Definition onUserDisconnected (s : MultiServer) : option MultiServer :=
  let s1 := printStatusUpdate s in
  if decide (m_state s1 = STOPPING) then stop s1 else tryAutoStop s1.

(** ** The JSON API *)

Definition settings : list ConfigKey :=
  [ ClientTimeout; SessionSizeLimit; SessionCountLimit; EnablePersistence;
    IdleTimeLimit; ServerTitle; WelcomeMessage; AnnounceWhiteList;
    LocalAddress; PrivateUserList; AllowGuests ].

(** The body of the first [for] loop of [serverJsonApi]. *)
Definition updateSetting (request : QJsonObject) (c : ServerConfig)
    (key : ConfigKey) : ServerConfig :=
  if contains request (name key)
  then setConfigString key (variantToString (valueAt request (name key))) c
  else c.

(** The call of [setConfigString] in that body. *)
Definition writeSetting (request : QJsonObject) (c : ServerConfig)
    (key : ConfigKey) : ServerConfig :=
  setConfigString key (variantToString (valueAt request (name key))) c.

(** The body of the second loop. *)
Definition reportSetting (c : ServerConfig) (result : QJsonObject)
    (key : ConfigKey) : QJsonObject :=
  <[ name key := fromVariant (getConfigVariant key c) ]> result.

Definition serverJsonApi (method : JsonApiMethod) (path : list string)
    (request : QJsonObject) (s : MultiServer) : JsonApiResult * MultiServer :=
  match path with
  | _ :: _ => (JsonApiNotFound, s)
  | [] =>
      match method with
      | Create | Delete => (JsonApiBadMethod, s)
      | Get | Update =>
          let c :=
            match method with
            | Update => foldl (updateSetting request) (m_config s) settings
            | _ => m_config s
            end in
          let result := foldl (reportSetting c) ∅ settings in
          (JsonApiOk (ObjectDocument result), with_config c s)
      end
  end.

Definition banlistJsonApi (method : JsonApiMethod) (path : list string)
    (request : QJsonObject) (s : MultiServer) : JsonApiResult * MultiServer :=
  if negb (isDatabase (m_config s)) then (JsonApiNotFound, s)
  else
    match path with
    | [entry] =>
        match method with
        | Delete =>
            let '(ok, c) := deleteBan (stringToInt entry) (m_config s) in
            if ok then (JsonApiOk EmptyDocument, with_config c s)
            else (JsonApiNotFound, with_config c s)
        | _ => (JsonApiBadMethod, s)
        end
    | _ :: _ => (JsonApiNotFound, s)
    | [] =>
        match method with
        | Get => (JsonApiOk (ArrayDocument (getBanlist (m_config s))), s)
        | Create =>
            let ip := hostAddress (toString (valueAt request "ip")) in
            if addressIsNull ip then
              (JsonApiErrorResult BadRequest "Valid IP address required", s)
            else
              let subnet := toInt (valueAt request "subnet") in
              let expiration :=
                dateTimeFromString (toString (valueAt request "expiration"))
                                   "yyyy-MM-dd HH:mm:ss" in
              if dateTimeIsNull expiration then
                (JsonApiErrorResult BadRequest "Valid expiration time required", s)
              else
                let comment := toString (valueAt request "comment") in
                let '(entry, c) := addBan ip subnet expiration comment (m_config s) in
                (JsonApiOk (ObjectDocument entry), with_config c s)
        | _ => (JsonApiBadMethod, s)
        end
    end.

Definition callJsonApi (method : JsonApiMethod) (path : list string)
    (request : QJsonObject) (s : MultiServer) : JsonApiResult * MultiServer :=
  let '(head, tail) := popApiPath path in
  if decide (head = "server"%string) then serverJsonApi method tail request s
  else if decide (head = "sessions"%string) then
    let '(r, reg) := sessionsJsonApi method tail request (m_sessions s) in
    (r, with_sessions reg s)
  else if decide (head = "banlist"%string) then
    banlistJsonApi method tail request s
  else (JsonApiNotFound, s).

End MultiServer.

End Server.

(* ================================================================== *)
(** * Concrete scenarios *)
(* ================================================================== *)

(** Inputs on which the model is run: a member C that has just joined a
    session in which A (user 1) and B (user 2) are drawing. *)
Module Scenario.

Import Client.

Definition session : Session :=
  {| s_id := 1; s_owner := 1; s_maxusers := 8; s_mode := 0 |}.

(** The state C's constructor builds, with [null_user] being 0 and no
    mode in which a user counts as locked. *)
Definition joiner : SessionState :=
  newSessionState (fun _ => false) "C" 3 session.

Definition strokeOfB (x y : Z) : Message :=
  MStrokeInfo {| si_session_id := 1; si_user_id := 2;
                 si_x := x; si_y := y; si_pressure := 255 |}.

Definition endOfB : Message :=
  MStrokeEnd {| se_session_id := 1; se_user_id := 2 |}.

(** The first half of a two-byte raster. *)
Definition firstHalf : Raster :=
  {| r_session_id := 1; r_offset := 0; r_length := 1; r_size := 2;
     r_data := [x2a] |}.

(** The second half, which completes it. *)
Definition secondHalf : Raster :=
  {| r_session_id := 1; r_offset := 1; r_length := 1; r_size := 2;
     r_data := [x2b] |}.

(** The raster message with all fields zeroed. *)
Definition zeroRaster : Raster :=
  {| r_session_id := 1; r_offset := 0; r_length := 0; r_size := 0;
     r_data := [] |}.

(** What C receives while the snapshot is on its way. *)
Definition duringTransfer : list Received :=
  [ RecvDrawing (strokeOfB 10 10); RecvRaster firstHalf;
    RecvDrawing (strokeOfB 65535 12); RecvDrawing endOfB ].

(** C with two of B's commands in its queue. *)
Definition waiting : SessionState :=
  with_drawbuffer [strokeOfB 10 10; endOfB] joiner.

(** What C receives once it is live. *)
Definition afterwards : list Received :=
  [ RecvRaster firstHalf; RecvDrawing (strokeOfB 1 2); RecvSyncWait;
    RecvRaster zeroRaster ].

End Scenario.

(** A server to run the model on: stand-ins for Qt's value types, a
    configuration store held in memory and a registry that only counts.
    They implement the interfaces above; the theorems do not depend on
    them. *)
Module Deployment.

Import Server.

Inductive JValue :=
| JUndefined | JNull | JBool (b : bool) | JNumber (n : Z) | JString (s : string).

Definition isDigit (c : ascii) : bool :=
  let n := nat_of_ascii c in (48 <=? n)%nat && (n <=? 57)%nat.

(** [text] has the shape of [pattern], in which [d] stands for a digit. *)
Fixpoint hasShape (pattern text : string) : bool :=
  match pattern, text with
  | EmptyString, EmptyString => true
  | String p pattern', String c text' =>
      (if Ascii.eqb p "d"%char then isDigit c else Ascii.eqb p c)
      && hasShape pattern' text'
  | _, _ => false
  end.

(** [text] is made of [dots + 1] groups of digits separated by dots. *)
Fixpoint dotted (dots : nat) (inGroup : bool) (text : string) : bool :=
  match text with
  | EmptyString => inGroup && (dots =? 0)%nat
  | String c text' =>
      if isDigit c then dotted dots true text'
      else if Ascii.eqb c "."%char then
        match dots with
        | S dots' => inGroup && dotted dots' false text'
        | O => false
        end
      else false
  end.

(** Decimal digits read as a number. *)
Fixpoint readDigits (acc : Z) (text : string) : option Z :=
  match text with
  | EmptyString => Some acc
  | String c text' =>
      if isDigit c
      then readDigits (10 * acc + Z.of_nat (nat_of_ascii c - 48)) text'
      else None
  end.

#[export] Instance qt : Qt := {|
  QJsonValue := JValue;
  QJsonArray := list string;
  QVariant := string;
  QHostAddress := option string;
  QDateTime := option string;
  undefinedValue := JUndefined;
  toString v := match v with JString s => s | _ => ""%string end;
  toInt v := match v with JNumber n => n | _ => 0 end;
  variantToString v :=
    match v with
    | JString s => s
    | JBool true => "true"%string
    | JBool false => "false"%string
    | JNumber n => pretty n
    | _ => ""%string
    end;
  fromVariant v := JString v;
  stringToInt text := default 0 (readDigits 0 text);
  hostAddress text :=
    if dotted 3 false text then Some text else None;
  addressIsNull a := bool_decide (a = None);
  dateTimeFromString text format :=
    if hasShape "dddd-dd-dd dd:dd:dd" text then Some text else None;
  dateTimeIsNull t := bool_decide (t = None)
|}.

Record Ban := {
  ban_id : Z;
  ban_ip : string;
  ban_subnet : Z;
  ban_expires : string;
  ban_comment : string
}.

Record Store := {
  database : bool;
  values : gmap string string;
  bans : list Ban
}.

Definition keyName (key : ConfigKey) : string :=
  match key with
  | ClientTimeout => "clientTimeout"
  | SessionSizeLimit => "sessionSizeLimit"
  | SessionCountLimit => "sessionCountLimit"
  | EnablePersistence => "persistence"
  | IdleTimeLimit => "idleTimeLimit"
  | ServerTitle => "serverTitle"
  | WelcomeMessage => "welcomeMessage"
  | AnnounceWhiteList => "announceWhitelist"
  | LocalAddress => "localAddress"
  | PrivateUserList => "privateUserList"
  | AllowGuests => "allowGuests"
  end%string.

#[export] Instance store : ServerConfigOps Store := {|
  name := keyName;
  isAddressBanned c a :=
    match a with
    | Some ip => existsb (fun b => bool_decide (ban_ip b = ip)) (bans c)
    | None => false
    end;
  setConfigString key value c :=
    {| database := database c;
       values := <[ keyName key := value ]> (values c);
       bans := bans c |};
  getConfigVariant key c := default ""%string (values c !! keyName key);
  isDatabase := database;
  getBanlist c := ban_ip <$> bans c;
  addBan ip subnet expiration comment c :=
    let b := {| ban_id := Z.of_nat (length (bans c)) + 1;
                ban_ip := default ""%string ip;
                ban_subnet := subnet;
                ban_expires := default ""%string expiration;
                ban_comment := comment |} in
    ({[ "id"%string := JNumber (ban_id b) ]},
     {| database := database c; values := values c; bans := bans c ++ [b] |});
  deleteBan id c :=
    (existsb (fun b => ban_id b =? id) (bans c),
     {| database := database c; values := values c;
        bans := List.filter (fun b => negb (ban_id b =? id)) (bans c) |})
|}.

Record Registry := {
  lobby : list Client;
  users : Z;
  sessions : Z
}.

#[export] Instance registry : SessionServerOps Registry := {|
  sessionCount := sessions;
  totalUsers := users;
  addClient client r :=
    {| lobby := lobby r ++ [client]; users := users r; sessions := sessions r |};
  stopAll r := {| lobby := []; users := users r; sessions := 0 |};
  sessionsJsonApi method path request r := (JsonApiNotFound, r)
|}.

Definition banOf (ip : string) : Ban :=
  {| ban_id := 1; ban_ip := ip; ban_subnet := 0;
     ban_expires := "2030-01-01 00:00:00"; ban_comment := "" |}.

Definition peer (ip : string) : QTcpSocket := {| peerAddress := Some ip |}.

(** A running server with auto-stop on, nobody logged in, no session
    open, one banned address and that address knocking. *)
Definition vacant (withDatabase : bool) : MultiServer :=
  {| m_config := {| database := withDatabase; values := ∅;
                    bans := [banOf "10.0.0.66"] |};
     m_server := Some {| listening := true; pending := [peer "10.0.0.66"] |};
     m_sessions := {| lobby := []; users := 0; sessions := 0 |};
     m_state := RUNNING;
     m_autoStop := true;
     effects := [] |}.

(** The same server with one session open and two users in it, and a
    welcome peer knocking. *)
Definition busy : MultiServer :=
  {| m_config := m_config (vacant true);
     m_server := Some {| listening := true; pending := [peer "10.0.0.7"] |};
     m_sessions := {| lobby := []; users := 2; sessions := 1 |};
     m_state := RUNNING;
     m_autoStop := true;
     effects := [] |}.

(** An update of the title alone. *)
Definition retitle : QJsonObject :=
  {[ "serverTitle"%string := JString "Sketch night" ]}.

(** A ban request whose expiration is not a timestamp. *)
Definition banUntilTomorrow : QJsonObject :=
  {[ "ip"%string := JString "10.0.0.9";
     "expiration"%string := JString "tomorrow" ]}.

End Deployment.

(* ================================================================== *)
(** * Runs of the client *)
(* ================================================================== *)

(** Sequences of calls on a [SessionState], the rest of its interface,
    and the vocabulary to speak about them. *)
Module ClientRuns.

Import Client.

(** ** Members *)

(** [hasUser(id)] *)
Definition hasUser (id : Z) (st : SessionState) : bool :=
  bool_decide (is_Some (users_ st !! id)).

(** [user(id)], which asserts [hasUser(id)]. *)
Definition user (id : Z) (st : SessionState) : option User :=
  users_ st !! id.

(** [update(info)] *)
Definition update (info : Session) (st : SessionState) : SessionState :=
  let st1 :=
    if negb (s_maxusers (info_ st) =? s_maxusers info)
    then emit (userLimitChanged (s_maxusers info)) st else st in
  with_info info st1.

(** The user events that take a member out of the session. *)
Definition isDeparture (e : UserEvent) : bool :=
  match e with
  | Leave | Disconnect | BrokenPipe | TimedOut | Dropped | Kicked => true
  | _ => false
  end.

(** Whether [id] is a member after the messages [msgs], when [before]
    says whether it was one: the last join or departure of [id] decides. *)
Definition memberAfter (id : Z) (before : bool) (msgs : list Received) : bool :=
  foldl (fun member msg =>
           match msg with
           | RecvUserInfo m =>
               if ui_user_id m =? id then
                 match ui_event m with
                 | Join => true
                 | UserEventOther _ => member
                 | _ => false
                 end
               else member
           | _ => member
           end) before msgs.

(** The received messages that are session events. *)
Definition isSessionEvent (msg : Received) : bool :=
  match msg with
  | RecvSessionEvent _ => true
  | _ => false
  end.

(** ** Messages the session sends *)

(** The messages built by the senders modelled here, as handed to
    [host_->net_->send]. *)
Inductive Outgoing :=
| OutStrokeInfo (session_id x y pressure : Z)
| OutStrokeEnd (session_id : Z)
| OutSessionEvent (session_id : Z) (action : SessionAction) (target : Z)
| OutAcknowledgement (session_id : Z) (event : AckEvent).

Section Senders.

(** [qRound(pressure * 255)], which the source computes in floating
    point. *)
Variable pressureByte : QArith_base.Q -> Z.

(** [sendStrokeInfo(point)]: the coordinates are stored in 16-bit
    unsigned fields. *)
Definition sendStrokeInfo (point : Point) (st : SessionState) : Outgoing :=
  OutStrokeInfo (s_id (info_ st)) (px point mod 2 ^ 16) (py point mod 2 ^ 16)
                (pressureByte (ppressure point)).

End Senders.

Definition sendStrokeEnd (st : SessionState) : Outgoing :=
  OutStrokeEnd (s_id (info_ st)).

Definition sendAckSync (st : SessionState) : Outgoing :=
  OutAcknowledgement (s_id (info_ st)) AckSyncWait.

Definition kickUser (id : Z) (st : SessionState) : Outgoing :=
  OutSessionEvent (s_id (info_ st)) Kick id.

Definition lockUser (id : Z) (lock : bool) (st : SessionState) : Outgoing :=
  OutSessionEvent (s_id (info_ st)) (if lock then Lock else Unlock) id.

(** ** Uploading a raster *)

(** [n] acknowledgements of raster chunks, one after the other. *)
Fixpoint acknowledged (n : nat) (st : SessionState) : option SessionState :=
  match n with
  | O => Some st
  | S n' =>
      match handleAck AckRaster st with
      | Some st' => acknowledged n' st'
      | None => None
      end
  end.

(** [sendRaster(raster)] followed by [n] acknowledgements. *)
Definition upload (raster : QByteArray) (n : nat) (st : SessionState)
  : option SessionState :=
  match sendRaster raster st with
  | Some st' => acknowledged n st'
  | None => None
  end.

(** The number of chunks of a raster of [n] bytes. *)
Definition chunkCount (n : nat) : nat := ((n + 4095) / 4096)%nat.

(** The raster messages among the events, as their receiver gets them. *)
Definition sentChunks (events : list Event) : list Raster :=
  flat_map (fun e =>
              match e with
              | SendRaster id offset len size data =>
                  [ {| r_session_id := id; r_offset := offset;
                       r_length := len; r_size := size; r_data := data |} ]
              | _ => []
              end) events.

(** ** Downloading a raster *)

(** [handleRaster] on the chunks in turn. *)
Fixpoint receiveChunks (fuel : nat) (chunks : list Raster) (st : SessionState)
  : option SessionState :=
  match chunks with
  | [] => Some st
  | chunk :: rest =>
      match handleRaster fuel chunk st with
      | Some st' => receiveChunks fuel rest st'
      | None => None
      end
  end.

(** [chunks] cut [raster] from [offset] to its end into consecutive
    pieces that are not empty, each announcing the size of the whole. *)
Fixpoint slices (raster : QByteArray) (offset : nat) (chunks : list Raster)
  : Prop :=
  match chunks with
  | [] => offset = length raster
  | chunk :: rest =>
      let len := Z.to_nat (r_length chunk) in
      r_offset chunk = Z.of_nat offset
      /\ r_size chunk = Z.of_nat (length raster)
      /\ 0 < r_length chunk
      /\ (offset + len <= length raster)%nat
      /\ r_data chunk = take len (drop offset raster)
      /\ slices raster (offset + len)%nat rest
  end.

(** The progress signal a chunk is answered with. *)
Definition progressOf (chunk : Raster) : Event :=
  Emit (rasterReceived
          (if completes chunk then 100
           else u32 (99 * u32 (r_offset chunk + r_length chunk))
                / r_size chunk)).

(** ** Drawing commands in the trace *)

(** The signals that applied a drawing command, oldest first. *)
Definition applied (events : list Event) : list Signal :=
  flat_map (fun e =>
              match e with
              | Emit s => if isApplication (Emit s) then [s] else []
              | _ => []
              end) events.

(** The drawing messages released with [delete], oldest first. *)
Definition released (events : list Event) : list Message :=
  flat_map (fun e => match e with Delete msg => [msg] | _ => [] end) events.

(** Commands are queued only while buffering. *)
Definition tidy (st : SessionState) : Prop :=
  bufferdrawing_ st = false -> drawbuffer_ st = [].

(** A call that neither applies, queues nor releases a drawing command
    and leaves buffering as it is. *)
Definition silent (st st' : SessionState) : Prop :=
  bufferdrawing_ st' = bufferdrawing_ st
  /\ drawbuffer_ st' = drawbuffer_ st
  /\ applied (trace st') = applied (trace st)
  /\ released (trace st') = released (trace st).

End ClientRuns.

(* ================================================================== *)
(** * Runs of the server *)
(* ================================================================== *)

Module ServerRuns.

Import Server.

(** The states of the life cycle, in the order they are passed. *)
Definition rank (t : State) : nat :=
  match t with
  | NOT_STARTED => 0 | RUNNING => 1 | STOPPING => 2 | STOPPED => 3
  end.

Section Runs.

Context `{Qt}.
Context {ServerConfig : Type} `{!ServerConfigOps ServerConfig}.
Context {SessionServer : Type} `{!SessionServerOps SessionServer}.

Local Abbreviation MultiServer := (@MultiServer _ ServerConfig SessionServer).

(** What happens to a server: one of its slots or methods is called, or
    the registry, which lives its own life, moves to another state. *)
Inductive Step :=
| CallNewClient
| CallStop
| CallTryAutoStop
| SessionEnded
| UserDisconnected
| RegistryBecomes (registry : SessionServer).

Definition step (e : Step) (s : MultiServer) : option MultiServer :=
  match e with
  | CallNewClient => newClient s
  | CallStop => stop s
  | CallTryAutoStop => tryAutoStop s
  | SessionEnded => onSessionEnded s
  | UserDisconnected => onUserDisconnected s
  | RegistryBecomes registry => Some (with_sessions registry s)
  end.

Fixpoint run (steps : list Step) (s : MultiServer) : option MultiServer :=
  match steps with
  | [] => Some s
  | e :: rest =>
      match step e s with
      | Some s' => run rest s'
      | None => None
      end
  end.

(** How many times [serverStopped] was emitted. *)
Definition stoppedSignals (s : MultiServer) : nat :=
  length (List.filter (fun e => match e with ServerStopped => true | _ => false end)
                      (effects s)).

(** Whether the listener accepts connections. *)
Definition isListening (s : MultiServer) : bool :=
  match m_server s with
  | Some srv => listening srv
  | None => false
  end.

(** A call leaves the life cycle alone when it keeps the state, the
    signals sent so far and the listener's readiness. *)
Definition sameCycle (s s' : MultiServer) : Prop :=
  m_state s' = m_state s
  /\ stoppedSignals s' = stoppedSignals s
  /\ isListening s' = isListening s.

(** The server has said [serverStopped] once if it is STOPPED and not at
    all otherwise, and its listener is closed if it is stopping or
    stopped.  A server that has not been stopped yet and has emitted
    nothing is of that kind. *)
Definition orderly (s : MultiServer) : Prop :=
  stoppedSignals s = (if decide (m_state s = STOPPED) then 1 else 0)%nat
  /\ (m_state s = STOPPING \/ m_state s = STOPPED -> isListening s = false).

(** [newClient] once for each pending connection. *)
Fixpoint admitAll (n : nat) (s : MultiServer) : option MultiServer :=
  match n with
  | O => Some s
  | S n' =>
      match newClient s with
      | Some s' => admitAll n' s'
      | None => None
      end
  end.

(** The clients made of the sockets whose peer is banned, and of the
    others. *)
Definition refused (c : ServerConfig) (socks : list QTcpSocket) : list Client :=
  (fun sock => {| socket := sock |})
    <$> List.filter (fun sock => isAddressBanned c (peerAddress sock)) socks.

Definition welcomed (c : ServerConfig) (socks : list QTcpSocket) : list Client :=
  (fun sock => {| socket := sock |})
    <$> List.filter
          (fun sock => negb (isAddressBanned c (peerAddress sock))) socks.

(** The kicks among the effects, oldest first. *)
Definition kicked (s : MultiServer) : list Client :=
  flat_map (fun e => match e with DisconnectKick c _ => [c] | _ => [] end)
           (effects s).

End Runs.

End ServerRuns.

(* ================================================================== *)
(** * More concrete scenarios *)
(* ================================================================== *)

(** More of the scenario: D comes and goes, B is locked. *)
Module RunScenario.

Import Client ClientRuns Scenario.

Definition joinOfD : UserInfo :=
  {| ui_user_id := 7; ui_event := Join; ui_mode := 0; ui_name := "D" |}.

Definition kickOfD : UserInfo :=
  {| ui_user_id := 7; ui_event := Kicked; ui_mode := 0; ui_name := "" |}.

(** D joins, is the target of a kick event, is reported kicked, and
    joins again. *)
Definition comings : list Received :=
  [ RecvUserInfo joinOfD;
    RecvSessionEvent {| sev_action := Kick; sev_target := 7 |};
    RecvUserInfo kickOfD;
    RecvDrawing endOfB;
    RecvUserInfo joinOfD ].

(** A point right of the 16-bit range. *)
Definition farPoint : Point :=
  {| px := 40000; py := -12; ppressure := over255 255 |}.

(** Everything C receives in the scenario, before and after its
    snapshot is complete. *)
Definition everything : list Received :=
  duringTransfer ++ [RecvRaster secondHalf] ++ afterwards.

End RunScenario.

(** A day of the vacant server: the banned peer knocks, a user count
    comes in, the operator stops the server, the last user leaves. *)
Module RunDeployment.

Import Server ServerRuns Deployment.

Definition someoneIn : Registry :=
  {| lobby := []; users := 1; sessions := 1 |}.

Definition nobodyIn : Registry :=
  {| lobby := []; users := 0; sessions := 1 |}.

Definition day : list (@Step Registry) :=
  [ CallNewClient; RegistryBecomes someoneIn; SessionEnded; CallStop;
    RegistryBecomes someoneIn; UserDisconnected;
    RegistryBecomes nobodyIn; UserDisconnected; CallStop; CallTryAutoStop ].

(** The vacant server after the banned peer has knocked and the server
    has been stopped. *)
Definition stoppedEarly : MultiServer :=
  {| m_config := m_config (vacant true);
     m_server := Some {| listening := false; pending := [] |};
     m_sessions := {| lobby := []; users := 0; sessions := 0 |};
     m_state := STOPPED;
     m_autoStop := true;
     effects := [ DisconnectKick {| socket := peer "10.0.0.66" |} "BANNED";
                  ServerStopped ] |}.

(** Two peers wait at the busy server, the second one banned. *)
Definition crowded : MultiServer :=
  with_server
    (Some {| listening := true;
             pending := [peer "10.0.0.7"; peer "10.0.0.66"; peer "10.0.0.8"] |})
    busy.

(** The title update with a key that is no setting. *)
Definition retitleAndMore : QJsonObject :=
  <[ "colour"%string := JString "red" ]> retitle.

End RunDeployment.

(* ================================================================== *)
(** * Properties of the client *)
(* ================================================================== *)

Section ClientProperties.

Import Client.

Variable null_user : Z.
Variable isLockedMode : Z -> bool.

Local Abbreviation receive := (receive null_user isLockedMode).
Local Abbreviation receiveAll := (receiveAll null_user isLockedMode).

(** *** The handlers of drawing commands *)

Lemma handleBuffered_buffering msg st :
  bufferdrawing_ st = true ->
  handleBuffered msg st = (true, enqueue msg st).
Proof.
  intros Hb. destruct msg; simpl;
    unfold handleToolInfo, handleStrokeInfo, handleStrokeEnd;
    now rewrite Hb.
Qed.

Lemma handleBuffered_live msg st :
  bufferdrawing_ st = false ->
  handleBuffered msg st = (false, emit (signalOf msg) st).
Proof.
  intros Hb. destruct msg; simpl;
    unfold handleToolInfo, handleStrokeInfo, handleStrokeEnd;
    now rewrite Hb.
Qed.

Lemma receive_drawing fuel msg st :
  receive fuel (RecvDrawing msg) st
  = Some (afterDrawing msg (handleBuffered msg st)).
Proof. now destruct msg. Qed.

(** *** The drain loop *)

Lemma replay_cons msg msgs :
  replay (msg :: msgs) = Emit (signalOf msg) :: Delete msg :: replay msgs.
Proof. reflexivity. Qed.

Lemma replay_app xs ys : replay (xs ++ ys) = replay xs ++ replay ys.
Proof. unfold replay. now rewrite flat_map_app. Qed.

Lemma drainLoop_live fuel : forall st,
  bufferdrawing_ st = false ->
  (length (drawbuffer_ st) <= fuel)%nat ->
  drainLoop fuel st = Some (flushed st).
Proof.
  induction fuel as [|fuel IH]; intros [i u r o l b q us t] Hb Hlen;
    simpl in Hb, Hlen; subst b.
  - destruct q; [|simpl in Hlen; lia].
    simpl. unfold flushed; simpl. now rewrite app_nil_r.
  - destruct q as [|msg rest].
    + simpl. unfold flushed; simpl. now rewrite app_nil_r.
    + cbn [drainLoop drawbuffer_].
      rewrite handleBuffered_live by reflexivity.
      rewrite IH; [|reflexivity|simpl in *; lia].
      unfold flushed, record, emit, record, with_drawbuffer.
      cbn [info_ users_ raster_ rasteroffset_ lock_ bufferdrawing_
           drawbuffer_ usersessions_ trace snd].
      rewrite replay_cons. now rewrite <- !app_assoc.
Qed.

(** With the flag still set the loop would never end: each handler puts
    its message back at the end of the queue. *)
Lemma drainLoop_buffering fuel : forall st,
  bufferdrawing_ st = true ->
  drawbuffer_ st <> [] ->
  drainLoop fuel st = None.
Proof.
  induction fuel as [|fuel IH]; intros [i u r o l b q us t] Hb Hq;
    simpl in Hb, Hq; subst b; destruct q as [|msg rest]; try done.
  cbn [drainLoop drawbuffer_].
  rewrite handleBuffered_buffering by reflexivity.
  apply IH; simpl; [reflexivity|].
  now destruct rest.
Qed.

Lemma flushDrawBuffer_spec fuel st :
  (length (drawbuffer_ st) <= fuel)%nat ->
  flushDrawBuffer fuel st = Some (flushed st).
Proof.
  intros Hlen. unfold flushDrawBuffer.
  rewrite drainLoop_live; [|reflexivity|exact Hlen].
  reflexivity.
Qed.

Lemma drainLoop_Some fuel : forall st st',
  drainLoop fuel st = Some st' ->
  drawbuffer_ st' = [] /\ bufferdrawing_ st' = bufferdrawing_ st.
Proof.
  induction fuel as [|fuel IH]; intros [i u r o l b q us t] st';
    destruct q as [|msg rest]; cbn [drainLoop drawbuffer_]; intros Hrun;
    try discriminate; try (injection Hrun as <-; now split).
  apply IH in Hrun as [Hq Hb]. split; [exact Hq|].
  rewrite Hb. destruct b.
  - now rewrite handleBuffered_buffering.
  - now rewrite handleBuffered_live.
Qed.

Lemma flushDrawBuffer_Some fuel st st' :
  flushDrawBuffer fuel st = Some st' ->
  drawbuffer_ st' = [] /\ bufferdrawing_ st' = false.
Proof. intros Hrun. now apply drainLoop_Some in Hrun. Qed.

(** *** Raster chunks *)

Lemma handleRaster_completes fuel msg st :
  completes msg = true ->
  (length (drawbuffer_ st) <= fuel)%nat ->
  exists st',
    handleRaster fuel msg st = Some st'
    /\ trace st' = trace st ++ Emit (rasterReceived 100) :: replay (drawbuffer_ st)
    /\ drawbuffer_ st' = [] /\ bufferdrawing_ st' = false.
Proof.
  unfold completes, handleRaster. intros Hc Hlen.
  destruct (r_size msg =? 0).
  - rewrite flushDrawBuffer_spec by exact Hlen.
    eexists; split; [reflexivity|]. simpl. now rewrite <- app_assoc.
  - simpl in Hc. apply negb_true_iff in Hc. rewrite Hc.
    rewrite flushDrawBuffer_spec by (destruct (r_offset msg =? 0); exact Hlen).
    eexists; split; [reflexivity|].
    destruct (r_offset msg =? 0); simpl; now rewrite <- app_assoc.
Qed.

Lemma handleRaster_partial fuel msg st :
  completes msg = false ->
  exists st',
    handleRaster fuel msg st = Some st'
    /\ bufferdrawing_ st' = bufferdrawing_ st
    /\ drawbuffer_ st' = drawbuffer_ st
    /\ exists percent, trace st' = trace st ++ [Emit (rasterReceived percent)].
Proof.
  unfold completes, handleRaster. intros Hc.
  apply orb_false_iff in Hc as [Hz Hlt]. rewrite Hz.
  apply negb_false_iff in Hlt. rewrite Hlt.
  eexists; split; [reflexivity|].
  destruct (r_offset msg =? 0); simpl; eauto.
Qed.

(** *** Receiving while the snapshot is incomplete *)

Lemma filter_snoc_other (t : list Event) e :
  isApplication e = false ->
  List.filter isApplication (t ++ [e]) = List.filter isApplication t.
Proof.
  intros He. rewrite List.filter_app. simpl. rewrite He. apply app_nil_r.
Qed.

Lemma receive_whileBuffering fuel msg st :
  bufferdrawing_ st = true ->
  whileBuffering msg = true ->
  exists st',
    receive fuel msg st = Some st'
    /\ bufferdrawing_ st' = true
    /\ drawbuffer_ st' = drawbuffer_ st ++ drawingOps [msg]
    /\ List.filter isApplication (trace st')
       = List.filter isApplication (trace st).
Proof.
  intros Hb Hw.
  destruct msg as [e|m|m| | |m|m|m]; cbn [drawingOps flat_map];
    rewrite ?app_nil_r.
  - destruct e; try discriminate; eexists; (split; [reflexivity|]);
      simpl; rewrite ?filter_snoc_other; auto.
  - eexists; split; [reflexivity|].
    unfold handleUserInfo.
    destruct (ui_event m); simpl; rewrite ?filter_snoc_other; auto;
      destruct (users_ st !! ui_user_id m); simpl;
      rewrite ?filter_snoc_other; auto.
  - simpl in Hw. apply negb_true_iff in Hw.
    destruct (handleRaster_partial fuel m st Hw)
      as (st' & Hrun & Hb' & Hq & percent & Ht).
    exists st'. cbn [receive]. rewrite Hrun, Hb', Hq, Ht.
    rewrite filter_snoc_other by reflexivity. auto.
  - eexists; split; [reflexivity|]. simpl.
    rewrite filter_snoc_other; auto.
  - eexists; split; [reflexivity|]. simpl.
    rewrite filter_snoc_other; auto.
  - eexists; split; [reflexivity|]. unfold handleSessionEvent.
    destruct (negb (sev_target m =? null_user)
              && negb (bool_decide (is_Some (users_ st !! sev_target m))));
      [auto|].
    destruct (sev_action m), (negb (sev_target m =? null_user)); simpl;
      rewrite ?filter_snoc_other; auto.
  - eexists; split; [reflexivity|]. simpl.
    rewrite filter_snoc_other; auto.
  - rewrite receive_drawing, handleBuffered_buffering by exact Hb.
    eexists; split; [reflexivity|]. simpl. auto.
Qed.

Lemma drawingOps_cons msg msgs :
  drawingOps (msg :: msgs) = drawingOps [msg] ++ drawingOps msgs.
Proof. unfold drawingOps. simpl. now rewrite app_nil_r. Qed.

Lemma receiveAll_whileBuffering fuel msgs : forall st,
  bufferdrawing_ st = true ->
  forallb whileBuffering msgs = true ->
  exists st',
    receiveAll fuel msgs st = Some st'
    /\ bufferdrawing_ st' = true
    /\ drawbuffer_ st' = drawbuffer_ st ++ drawingOps msgs
    /\ List.filter isApplication (trace st')
       = List.filter isApplication (trace st).
Proof.
  induction msgs as [|msg msgs IH]; intros st Hb Hall.
  - exists st. simpl. rewrite app_nil_r. auto.
  - simpl in Hall. apply andb_true_iff in Hall as [Hw Hall].
    destruct (receive_whileBuffering fuel msg st Hb Hw)
      as (st1 & Hrun & Hb1 & Hq1 & Ht1).
    destruct (IH st1 Hb1 Hall) as (st2 & Hrun2 & Hb2 & Hq2 & Ht2).
    exists st2. cbn [Client.receiveAll]. rewrite Hrun, Hrun2.
    rewrite Hq2, Hq1, Ht2, Ht1, (drawingOps_cons msg msgs), <- app_assoc.
    auto.
Qed.

(** *** The claims on buffering and replay *)

(** C1.  While the member is buffering, which it is until a completing
    raster message arrives, every received drawing command is appended to
    the draw buffer in the order of receipt: none is applied (the trace
    gains no application) and none is dropped.  The raster message that
    completes the transfer then emits the 100% signal and applies the
    buffered commands, the ones that were queued before included, in
    exactly that order, leaving the buffer empty and buffering off. *)
Theorem drawing_buffered_then_replayed fuel msgs fin st :
  bufferdrawing_ st = true ->
  forallb whileBuffering msgs = true ->
  completes fin = true ->
  (length (drawbuffer_ st) + length (drawingOps msgs) <= fuel)%nat ->
  exists st1 st2,
    receiveAll fuel msgs st = Some st1
    /\ bufferdrawing_ st1 = true
    /\ drawbuffer_ st1 = drawbuffer_ st ++ drawingOps msgs
    /\ List.filter isApplication (trace st1)
       = List.filter isApplication (trace st)
    /\ receive fuel (RecvRaster fin) st1 = Some st2
    /\ trace st2
       = trace st1 ++ Emit (rasterReceived 100)
                      :: replay (drawbuffer_ st ++ drawingOps msgs)
    /\ drawbuffer_ st2 = []
    /\ bufferdrawing_ st2 = false.
Proof.
  intros Hb Hall Hfin Hfuel.
  destruct (receiveAll_whileBuffering fuel msgs st Hb Hall)
    as (st1 & Hrun & Hb1 & Hq1 & Ht1).
  destruct (handleRaster_completes fuel fin st1 Hfin)
    as (st2 & Hrun2 & Ht2 & Hq2 & Hb2).
  { rewrite Hq1, length_app. exact Hfuel. }
  exists st1, st2. rewrite Hq1 in Ht2. auto 10.
Qed.

(** C10.  The flush terminates on every queue, with one iteration per
    queued message: it clears the flag first, so each message is taken
    from the queue, applied and deleted once, in queue order, none is put
    back, and the queue is empty at the end.  Nothing else changes. *)
Theorem flushDrawBuffer_terminates fuel st :
  (length (drawbuffer_ st) <= fuel)%nat ->
  exists st',
    flushDrawBuffer fuel st = Some st'
    /\ drawbuffer_ st' = []
    /\ bufferdrawing_ st' = false
    /\ trace st' = trace st ++ replay (drawbuffer_ st)
    /\ raster_ st' = raster_ st /\ rasteroffset_ st' = rasteroffset_ st
    /\ users_ st' = users_ st /\ info_ st' = info_ st
    /\ lock_ st' = lock_ st /\ usersessions_ st' = usersessions_ st.
Proof.
  intros Hlen. exists (flushed st).
  split; [now apply flushDrawBuffer_spec|]. simpl. auto 10.
Qed.

(** *** Live is for good *)

Lemma sendRasterChunk_buffer st st' :
  sendRasterChunk st = Some st' ->
  bufferdrawing_ st' = bufferdrawing_ st /\ drawbuffer_ st' = drawbuffer_ st.
Proof.
  unfold sendRasterChunk.
  repeat match goal with
         | |- context [if ?c then _ else _] => destruct c
         end; intros Hrun; try discriminate; injection Hrun as <-; now split.
Qed.

Lemma handleRaster_live fuel msg st :
  live st -> exists st', handleRaster fuel msg st = Some st' /\ live st'.
Proof.
  intros [Hb Hq].
  destruct (completes msg) eqn:Hc.
  - destruct (handleRaster_completes fuel msg st Hc)
      as (st' & Hrun & _ & Hq' & Hb').
    { rewrite Hq. simpl. lia. }
    exists st'. now repeat split.
  - destruct (handleRaster_partial fuel msg st Hc)
      as (st' & Hrun & Hb' & Hq' & _).
    exists st'. split; [exact Hrun|]. split; congruence.
Qed.

Lemma receive_live fuel msg st st' :
  live st -> receive fuel msg st = Some st' -> live st'.
Proof.
  intros Hlive Hrun. pose proof Hlive as [Hb Hq].
  destruct msg as [e|m|m| | |m|m|m]; rewrite ?receive_drawing in Hrun;
    cbn [Client.receive] in Hrun.
  - destruct e; simpl in Hrun; try (injection Hrun as <-; now split).
    apply sendRasterChunk_buffer in Hrun as [Hb' Hq']. split; congruence.
  - injection Hrun as <-. unfold handleUserInfo.
    destruct (ui_event m); try (now split);
      destruct (users_ st !! ui_user_id m); now split.
  - destruct (handleRaster_live fuel m st Hlive) as (st2 & Hrun2 & Hl2).
    congruence.
  - injection Hrun as <-. now split.
  - injection Hrun as <-. now split.
  - injection Hrun as <-. unfold handleSessionEvent.
    destruct (negb (sev_target m =? null_user)
              && negb (bool_decide (is_Some (users_ st !! sev_target m))));
      [now split|].
    destruct (sev_action m), (negb (sev_target m =? null_user)); now split.
  - injection Hrun as <-. now split.
  - rewrite handleBuffered_live in Hrun by exact Hb.
    injection Hrun as <-. now split.
Qed.

Lemma receiveAll_live fuel msgs : forall st st',
  live st -> receiveAll fuel msgs st = Some st' -> live st'.
Proof.
  induction msgs as [|msg msgs IH]; intros st st' Hlive Hrun;
    cbn [Client.receiveAll] in Hrun.
  - now injection Hrun as <-.
  - destruct (receive fuel msg st) as [st1|] eqn:Hstep; [|discriminate].
    eapply IH; [|exact Hrun]. eapply receive_live; eauto.
Qed.

(** Once live, receiving needs no fuel, and only the acknowledgement of
    a raster chunk, which drives an upload, can fail. *)
Lemma receive_live_total fuel msg st :
  live st -> msg <> RecvAck AckRaster ->
  exists st', receive fuel msg st = Some st'.
Proof.
  intros Hlive Hmsg.
  destruct msg as [e|m|m| | |m|m|m]; try (eexists; reflexivity).
  - destruct e; try (eexists; reflexivity). congruence.
  - destruct (handleRaster_live fuel m st Hlive) as (st' & Hrun & _). eauto.
  - rewrite receive_drawing. eauto.
Qed.

(** C2.  After a flush has drained the queue, whatever is received
    afterwards, a restarted raster transfer included, leaves buffering off
    and the queue empty; a drawing command received then is applied
    immediately: its handler emits the command's signal, returns [false]
    and does not touch the queue. *)
Theorem buffering_is_retired fuel0 st st0 fuel msgs st1 :
  flushDrawBuffer fuel0 st = Some st0 ->
  receiveAll fuel msgs st0 = Some st1 ->
  bufferdrawing_ st1 = false
  /\ drawbuffer_ st1 = []
  /\ forall op,
       handleBuffered op st1 = (false, emit (signalOf op) st1)
       /\ drawbuffer_ (emit (signalOf op) st1) = []
       /\ forall fuel',
            receive fuel' (RecvDrawing op) st1
            = Some (record (Delete op) (emit (signalOf op) st1)).
Proof.
  intros Hflush Hrun.
  apply flushDrawBuffer_Some in Hflush as [Hq0 Hb0].
  destruct (receiveAll_live fuel msgs st0 st1) as [Hb1 Hq1];
    [now split|exact Hrun|].
  repeat split; try assumption.
  - now apply handleBuffered_live.
  - intros fuel'. now rewrite receive_drawing, handleBuffered_live.
Qed.

(** *** Assembling the raster *)

(** C3.  A chunk of a raster of nonzero size with offset 0 restarts the
    transfer: what had been accumulated is discarded and the stored
    raster is exactly the chunk's data.  A chunk of such a raster with a
    nonzero offset is appended to what is stored. *)
Theorem raster_restart_or_append fuel msg st :
  r_size msg <> 0 ->
  (length (drawbuffer_ st) <= fuel)%nat ->
  exists st',
    handleRaster fuel msg st = Some st'
    /\ (r_offset msg = 0 ->
        raster_ st' = mkByteArray (r_data msg) (r_length msg))
    /\ (r_offset msg <> 0 ->
        raster_ st' = raster_ st ++ mkByteArray (r_data msg) (r_length msg)).
Proof.
  intros Hsize Hlen. unfold handleRaster.
  apply Z.eqb_neq in Hsize. rewrite Hsize.
  destruct (u32 (r_offset msg + r_length msg) <? r_size msg).
  - eexists; split; [reflexivity|].
    split; intros Ho.
    + rewrite Ho. reflexivity.
    + apply Z.eqb_neq in Ho. rewrite Ho. reflexivity.
  - rewrite flushDrawBuffer_spec by (destruct (r_offset msg =? 0); exact Hlen).
    eexists; split; [reflexivity|].
    split; intros Ho.
    + rewrite Ho. reflexivity.
    + apply Z.eqb_neq in Ho. rewrite Ho. reflexivity.
Qed.

(** Nothing is stored as long as no raster message of nonzero size has
    been received: that is so, in particular, when the zero-size message
    is the first raster message of the session. *)
Lemma receive_stores_nothing fuel msg st st' :
  raster_ st = [] -> storesNothing msg = true ->
  receive fuel msg st = Some st' -> raster_ st' = [].
Proof.
  intros Hr Hmsg Hrun.
  destruct msg as [e|m|m| | |m|m|m]; rewrite ?receive_drawing in Hrun;
    cbn [Client.receive] in Hrun; try (injection Hrun as <-).
  - destruct e; simpl in Hrun; try (now injection Hrun as <-).
    unfold sendRasterChunk in Hrun. rewrite Hr in Hrun. simpl in Hrun.
    repeat match type of Hrun with
           | context [if ?c then _ else _] => destruct c
           end; try discriminate; now injection Hrun as <-.
  - unfold handleUserInfo.
    destruct (ui_event m); try exact Hr;
      destruct (users_ st !! ui_user_id m); exact Hr.
  - simpl in Hmsg. unfold handleRaster in Hrun. rewrite Hmsg in Hrun.
    unfold flushDrawBuffer in Hrun.
    assert (Hkeep : forall n s s', drainLoop n s = Some s' ->
                                   raster_ s' = raster_ s).
    { clear. induction n as [|n IH]; intros [i u r o l b q us t] s';
        destruct q as [|msg rest]; cbn [drainLoop drawbuffer_]; intros Hrun;
        try discriminate; try (now injection Hrun as <-).
      apply IH in Hrun. rewrite Hrun. simpl.
      destruct msg; simpl;
        unfold handleToolInfo, handleStrokeInfo, handleStrokeEnd; simpl;
        now destruct b. }
    apply Hkeep in Hrun. now rewrite Hrun.
  - exact Hr.
  - exact Hr.
  - unfold handleSessionEvent.
    destruct (negb (sev_target m =? null_user)
              && negb (bool_decide (is_Some (users_ st !! sev_target m))));
      [exact Hr|].
    destruct (sev_action m), (negb (sev_target m =? null_user)); exact Hr.
  - exact Hr.
  - unfold afterDrawing.
    destruct (handleBuffered m st) as [kept st2] eqn:Hh. simpl.
    assert (raster_ st2 = raster_ st) as Heq.
    { destruct m; simpl in Hh;
        unfold handleToolInfo, handleStrokeInfo, handleStrokeEnd in Hh;
        destruct (bufferdrawing_ st); injection Hh as <- <-; reflexivity. }
    destruct kept; simpl; congruence.
Qed.

Lemma receiveAll_stores_nothing fuel msgs : forall st st',
  raster_ st = [] -> forallb storesNothing msgs = true ->
  receiveAll fuel msgs st = Some st' -> raster_ st' = [].
Proof.
  induction msgs as [|msg msgs IH]; intros st st' Hr Hall Hrun;
    cbn [Client.receiveAll] in Hrun.
  - now injection Hrun as <-.
  - simpl in Hall. apply andb_true_iff in Hall as [Hmsg Hall].
    destruct (receive fuel msg st) as [st1|] eqn:Hstep; [|discriminate].
    eapply IH; [|exact Hall|exact Hrun].
    eapply receive_stores_nothing; eauto.
Qed.

(** *** The zero-size raster *)

Section Image.

Variable Picture : Type.
Variable loadFromData : QByteArray -> option Picture.

(** With nothing stored, the session image is the null image. *)
Lemma sessionImage_empty st image :
  raster_ st = [] ->
  sessionImage Picture loadFromData st image = (true, nullImage Picture).
Proof. unfold sessionImage. now intros ->. Qed.

(** With something stored, the session image is a decoded picture or a
    failure, never the null image. *)
Lemma sessionImage_nonempty st image :
  raster_ st <> [] ->
  sessionImage Picture loadFromData st image <> (true, nullImage Picture).
Proof.
  unfold sessionImage, nullImage. intros Hr.
  destruct (raster_ st); [done|].
  destruct (loadFromData _); congruence.
Qed.

(** The part of C4 that the code keeps.  A raster message of size 0
    completes the transfer at once: the 100% signal is emitted, the draw
    buffer is flushed and buffering is off.  When no raster data is stored
    at that point, the session image is the null image. *)
Theorem zero_size_raster_goes_live fuel msg st :
  r_size msg = 0 ->
  (length (drawbuffer_ st) <= fuel)%nat ->
  exists st',
    handleRaster fuel msg st = Some st'
    /\ trace st'
       = trace st ++ Emit (rasterReceived 100) :: replay (drawbuffer_ st)
    /\ drawbuffer_ st' = []
    /\ bufferdrawing_ st' = false
    /\ (raster_ st = [] ->
        forall image,
          sessionImage Picture loadFromData st' image
          = (true, nullImage Picture)).
Proof.
  intros Hsize Hlen. unfold handleRaster. rewrite Hsize. simpl.
  rewrite flushDrawBuffer_spec by exact Hlen.
  eexists; split; [reflexivity|]. simpl. rewrite <- app_assoc.
  repeat split. intros Hr image. now apply sessionImage_empty.
Qed.

End Image.

(** *** Starting an upload *)

(** C5, as amended.  [sendRaster] on an empty raster sends nothing: no
    message goes to the network and no signal is emitted; the upload state
    is reset, with offset 0 and the raster released. *)
Theorem sendRaster_empty_sends_nothing st :
  exists st',
    sendRaster [] st = Some st'
    /\ trace st' = trace st
    /\ raster_ st' = []
    /\ rasteroffset_ st' = 0
    /\ isUploading st' = false.
Proof. eexists; split; [reflexivity|]. now repeat split. Qed.

(** For contrast: a raster that is not empty starts with one chunk at
    offset 0, of at most 4096 bytes, that announces the whole size. *)
Lemma sendRaster_first_chunk raster st :
  raster <> [] ->
  Z.of_nat (length raster) < 2 ^ 31 ->
  let len := Z.of_nat (length raster) in
  let chunklen := Z.min 4096 len in
  exists st',
    sendRaster raster st = Some st'
    /\ trace st'
       = trace st ++ [ SendRaster (s_id (info_ st)) 0 chunklen len
                         (take (Z.to_nat chunklen) raster);
                       Emit (rasterSent (100 * chunklen / len)) ]
    /\ rasteroffset_ st' = chunklen.
Proof.
  intros Hne Hlen len chunklen.
  assert (0 < len) by (subst len; destruct raster; [done|simpl; lia]).
  assert (Hu : forall z, 0 <= z < 2 ^ 32 -> u32 z = z)
    by (intros z Hz; unfold u32; now apply Z.mod_small).
  unfold sendRaster, sendRasterChunk.
  cbn [raster_ rasteroffset_ with_raster with_rasteroffset info_].
  fold len. change (1024 * 4) with 4096. rewrite Z.add_0_l, Z.sub_0_r.
  rewrite !Hu by (subst len; lia).
  destruct (len <? 4096) eqn:Hcmp.
  - apply Z.ltb_lt in Hcmp.
    assert (chunklen = len) as -> by (subst chunklen; lia).
    destruct (len =? 0) eqn:H0; [apply Z.eqb_eq in H0; lia|].
    rewrite Z.leb_refl.
    eexists; split; [reflexivity|]. simpl.
    rewrite Z.add_0_l, (Hu len), (Hu (100 * len)) by (subst len; lia).
    now rewrite <- app_assoc.
  - apply Z.ltb_ge in Hcmp.
    assert (chunklen = 4096) as -> by (subst chunklen; lia).
    simpl (4096 =? 0).
    change (0 + 4096) with 4096.
    destruct (4096 <=? len) eqn:Hle; [|apply Z.leb_gt in Hle; lia].
    eexists; split; [reflexivity|]. simpl.
    change (u32 4096) with 4096. change (u32 (100 * 4096)) with 409600.
    now rewrite <- app_assoc.
Qed.

End ClientProperties.

(** *** The client claims on the scenario *)

Section ClientScenario.

Import Client Scenario.

Local Abbreviation receive := (receive 0 (fun _ => false)).
Local Abbreviation receiveAll := (receiveAll 0 (fun _ => false)).

(** C1 on the scenario: C queues B's three commands while the first half
    of the raster arrives, and replays them when the second half does. *)
Lemma drawing_buffered_then_replayed_witness :
  exists st1 st2,
    receiveAll 3 duringTransfer joiner = Some st1
    /\ bufferdrawing_ st1 = true
    /\ drawbuffer_ st1 = drawbuffer_ joiner ++ drawingOps duringTransfer
    /\ List.filter isApplication (trace st1)
       = List.filter isApplication (trace joiner)
    /\ receive 3 (RecvRaster secondHalf) st1 = Some st2
    /\ trace st2
       = trace st1 ++ Emit (rasterReceived 100)
                      :: replay (drawbuffer_ joiner ++ drawingOps duringTransfer)
    /\ drawbuffer_ st2 = []
    /\ bufferdrawing_ st2 = false.
Proof.
  apply (drawing_buffered_then_replayed 0 (fun _ => false) 3
           duringTransfer secondHalf joiner);
    [reflexivity | reflexivity | reflexivity | simpl; lia].
Defined.

(** C10 on the scenario: two iterations empty a queue of two. *)
Lemma flushDrawBuffer_terminates_witness :
  exists st',
    flushDrawBuffer 2 waiting = Some st'
    /\ drawbuffer_ st' = []
    /\ bufferdrawing_ st' = false
    /\ trace st' = trace waiting ++ replay (drawbuffer_ waiting)
    /\ raster_ st' = raster_ waiting
    /\ rasteroffset_ st' = rasteroffset_ waiting
    /\ users_ st' = users_ waiting /\ info_ st' = info_ waiting
    /\ lock_ st' = lock_ waiting
    /\ usersessions_ st' = usersessions_ waiting.
Proof. apply (flushDrawBuffer_terminates 2 waiting). simpl. lia. Defined.

(** C2 on the scenario: after the flush C receives a restarted raster, a
    stroke, a sync-wait and a zero-size raster, and is still live. *)
Lemma buffering_is_retired_witness :
  exists st1,
    receiveAll 0 afterwards (flushed waiting) = Some st1
    /\ bufferdrawing_ st1 = false
    /\ drawbuffer_ st1 = []
    /\ forall op,
         handleBuffered op st1 = (false, emit (signalOf op) st1)
         /\ drawbuffer_ (emit (signalOf op) st1) = []
         /\ forall fuel',
              receive fuel' (RecvDrawing op) st1
              = Some (record (Delete op) (emit (signalOf op) st1)).
Proof.
  assert (Hrun : receiveAll 0 afterwards (flushed waiting)
                 = Some (default joiner
                           (receiveAll 0 afterwards (flushed waiting))))
    by reflexivity.
  eexists. split; [exact Hrun|].
  exact (buffering_is_retired 0 (fun _ => false) 2 waiting (flushed waiting)
           0 afterwards _ eq_refl Hrun).
Defined.

(** C3 on the scenario: the first half of the raster restarts the
    transfer. *)
Lemma raster_restart_or_append_witness :
  exists st',
    handleRaster 0 firstHalf joiner = Some st'
    /\ (r_offset firstHalf = 0 ->
        raster_ st' = mkByteArray (r_data firstHalf) (r_length firstHalf))
    /\ (r_offset firstHalf <> 0 ->
        raster_ st'
        = raster_ joiner ++ mkByteArray (r_data firstHalf) (r_length firstHalf)).
Proof.
  apply (raster_restart_or_append 0 firstHalf joiner);
    [discriminate | simpl; lia].
Defined.

(** On the scenario: the zero-size raster is the first raster message C
    receives. *)
Lemma zero_size_raster_goes_live_witness :
  exists st',
    handleRaster 2 zeroRaster waiting = Some st'
    /\ trace st'
       = trace waiting ++ Emit (rasterReceived 100)
                           :: replay (drawbuffer_ waiting)
    /\ drawbuffer_ st' = []
    /\ bufferdrawing_ st' = false
    /\ (raster_ waiting = [] ->
        forall image,
          sessionImage unit (fun _ => None) st' image = (true, nullImage unit)).
Proof.
  apply (zero_size_raster_goes_live unit (fun _ => None) 2 zeroRaster waiting);
    [reflexivity | simpl; lia].
Defined.

(** C4 fails on the code.  When the zero-size message follows a chunk of
    an unfinished transfer, C goes live with that chunk still stored, and
    the session image is not the null image whatever the decoder makes of
    it.  The branch of [handleRaster] for a transfer that has been
    restarted empties [raster_] first; the branch for size 0 does not,
    although [sessionImage] is documented to load a null image when the
    received raster was empty. *)
Lemma zero_size_raster_after_partial_transfer :
  exists st',
    receiveAll 0 [RecvRaster firstHalf; RecvRaster zeroRaster] joiner = Some st'
    /\ bufferdrawing_ st' = false
    /\ raster_ st' = [x2a]
    /\ forall (Picture : Type) (loadFromData : QByteArray -> option Picture)
         (image : QImage Picture),
         sessionImage Picture loadFromData st' image
         <> (true, nullImage Picture).
Proof.
  eexists. split; [reflexivity|]. split; [reflexivity|].
  split; [reflexivity|]. intros Picture loadFromData image.
  now apply sessionImage_nonempty.
Qed.

(** C5 as stated fails: starting the upload of an empty raster sends no
    chunk at all, so no chunk with offset 0, length 0 and size 0 either. *)
Lemma sendRaster_empty_sends_no_chunk :
  exists st',
    sendRaster [] joiner = Some st'
    /\ trace st' = []
    /\ forall session_id, ~ In (SendRaster session_id 0 0 0 []) (trace st').
Proof.
  eexists. split; [reflexivity|]. split; [reflexivity|].
  intros session_id [].
Qed.

(** The whole run of the scenario: 49% after the first half, 100% after
    the second, then B's commands in the order B sent them, each applied
    and released; the second stroke shows [x] read as a [signed short]. *)
Example replay_in_send_order :
  trace <$> receiveAll 3 (duringTransfer ++ [RecvRaster secondHalf]) joiner
  = Some
      [ Emit (rasterReceived 49);
        Emit (rasterReceived 100);
        Emit (strokeReceived 2
                {| px := 10; py := 10; ppressure := over255 255 |});
        Delete (strokeOfB 10 10);
        Emit (strokeReceived 2
                {| px := -1; py := 12; ppressure := over255 255 |});
        Delete (strokeOfB 65535 12);
        Emit (strokeEndReceived 2);
        Delete endOfB ].
Proof. reflexivity. Qed.

Example raster_after_transfer :
  raster_ <$> receiveAll 3 (duringTransfer ++ [RecvRaster secondHalf]) joiner
  = Some [x2a; x2b].
Proof. reflexivity. Qed.

(** An upload of three bytes is one chunk. *)
Example upload_of_three_bytes :
  trace <$> sendRaster [x01; x02; x03] joiner
  = Some [ SendRaster 1 0 3 3 [x01; x02; x03]; Emit (rasterSent 100) ].
Proof. reflexivity. Qed.

End ClientScenario.

(* ================================================================== *)
(** * Properties of the server *)
(* ================================================================== *)

Section ServerProperties.

Import Server.

Context `{Qt}.
Context {ServerConfig : Type} `{!ServerConfigOps ServerConfig}.
Context {SessionServer : Type} `{!SessionServerOps SessionServer}.

Local Abbreviation MultiServer := (@MultiServer _ ServerConfig SessionServer).

(** *** Admission *)

(** C6.  A new connection from a banned address is kicked with the
    message BANNED and goes no further: the session registry is left
    as it was, so the client is never handed to it.  A connection from
    any other address is handed to the registry.  [newClient] knows of
    no session: which one the client would ask for plays no part. *)
Theorem banned_peer_is_kicked (s : MultiServer) srv sock rest :
  m_server s = Some srv ->
  pending srv = sock :: rest ->
  exists s',
    newClient s = Some s'
    /\ m_config s' = m_config s
    /\ m_state s' = m_state s
    /\ (isAddressBanned (m_config s) (peerAddress sock) = true ->
        m_sessions s' = m_sessions s
        /\ effects s'
           = effects s ++ [DisconnectKick {| socket := sock |} "BANNED"])
    /\ (isAddressBanned (m_config s) (peerAddress sock) = false ->
        m_sessions s' = addClient {| socket := sock |} (m_sessions s)
        /\ effects s'
           = effects s
             ++ [NotifyStatus (totalUsers (m_sessions s'))
                              (sessionCount (m_sessions s'))]).
Proof.
  intros Hsrv Hpending. unfold newClient. rewrite Hsrv, Hpending.
  cbn [m_config with_server].
  destruct (isAddressBanned (m_config s) (peerAddress sock));
    eexists; (split; [reflexivity|]); simpl;
    repeat split; congruence.
Qed.

(** *** Stopping *)

(** [tryAutoStop] leaves alone a server that is not running, has
    auto-stop off, or is not vacant. *)
Lemma tryAutoStop_idle (s : MultiServer) :
  m_state s <> RUNNING \/ m_autoStop s = false
  \/ sessionCount (m_sessions s) <> 0 \/ totalUsers (m_sessions s) <> 0 ->
  tryAutoStop s = Some s.
Proof.
  unfold tryAutoStop. intros Hidle.
  destruct (bool_decide (m_state s = RUNNING)) eqn:Hrun;
    [apply bool_decide_eq_true in Hrun|reflexivity].
  destruct (m_autoStop s); [|reflexivity].
  destruct (sessionCount (m_sessions s) =? 0) eqn:Hs; [|reflexivity].
  destruct (totalUsers (m_sessions s) =? 0) eqn:Hu; [|reflexivity].
  apply Z.eqb_eq in Hs, Hu.
  destruct Hidle as [?|[?|[?|?]]]; congruence.
Qed.

(** [stop] moves into STOPPED only with zero users, and says so with
    [serverStopped]. *)
Lemma stop_STOPPED (s s' : MultiServer) :
  stop s = Some s' ->
  m_state s <> STOPPED ->
  m_state s' = STOPPED ->
  totalUsers (m_sessions s') = 0
  /\ effects s' = effects s ++ [ServerStopped].
Proof.
  unfold stop. intros Hstop Hbefore Hafter.
  destruct (decide (m_state s = RUNNING)) as [Hrun|Hrun].
  - destruct (m_server s) as [srv|]; [|discriminate].
    simpl in Hstop.
    destruct (totalUsers (stopAll (m_sessions s)) =? 0) eqn:Hu.
    + injection Hstop as <-. simpl. apply Z.eqb_eq in Hu. now split.
    + injection Hstop as <-. simpl in Hafter. discriminate.
  - destruct (decide (m_state s = STOPPING)) as [Hing|Hing].
    + destruct (totalUsers (m_sessions s) =? 0) eqn:Hu.
      * injection Hstop as <-. simpl. apply Z.eqb_eq in Hu. now split.
      * injection Hstop as <-. congruence.
    + injection Hstop as <-. congruence.
Qed.

(** Stopping a server that is stopping or stopped and still has users
    changes nothing. *)
Lemma stop_again (s : MultiServer) :
  m_state s = STOPPED
  \/ (m_state s = STOPPING /\ totalUsers (m_sessions s) <> 0) ->
  stop s = Some s.
Proof.
  unfold stop. intros Hs.
  destruct (decide (m_state s = RUNNING)) as [Hrun|_];
    [destruct Hs as [Hs|[Hs _]]; congruence|].
  destruct (decide (m_state s = STOPPING)) as [Hing|_]; [|reflexivity].
  destruct Hs as [Hs|[_ Hu]]; [congruence|].
  apply Z.eqb_neq in Hu. now rewrite Hu.
Qed.

(** C7.  On a running server with auto-stop on, [tryAutoStop] does
    nothing unless the registry reports no session and no user; the
    server comes out STOPPED only if the registry reported both counts as
    zero, only with a user count of zero, and with [serverStopped]
    emitted.  When both counts are zero it leaves RUNNING, and it is
    STOPPED as soon as the registry, asked again after [stopAll], still
    counts no user.  Whatever calls it, [stop] enters STOPPED only with a
    user count of zero and emits [serverStopped] as it does. *)
Theorem autostop_exactly_when_vacant (s : MultiServer) srv :
  m_state s = RUNNING ->
  m_autoStop s = true ->
  m_server s = Some srv ->
  exists s',
    tryAutoStop s = Some s'
    /\ (sessionCount (m_sessions s) <> 0 \/ totalUsers (m_sessions s) <> 0 ->
        s' = s)
    /\ (m_state s' = STOPPED ->
        sessionCount (m_sessions s) = 0
        /\ totalUsers (m_sessions s) = 0
        /\ totalUsers (m_sessions s') = 0
        /\ effects s' = effects s ++ [ServerStopped])
    /\ (sessionCount (m_sessions s) = 0 ->
        totalUsers (m_sessions s) = 0 ->
        m_sessions s' = stopAll (m_sessions s)
        /\ (totalUsers (stopAll (m_sessions s)) = 0 ->
            m_state s' = STOPPED
            /\ effects s' = effects s ++ [ServerStopped])
        /\ (totalUsers (stopAll (m_sessions s)) <> 0 ->
            m_state s' = STOPPING /\ effects s' = effects s))
    /\ (forall t t' : MultiServer,
          stop t = Some t' ->
          m_state t <> STOPPED ->
          m_state t' = STOPPED ->
          totalUsers (m_sessions t') = 0
          /\ effects t' = effects t ++ [ServerStopped]).
Proof.
  intros Hrun Hauto Hsrv.
  cut (exists s',
    tryAutoStop s = Some s'
    /\ (sessionCount (m_sessions s) <> 0 \/ totalUsers (m_sessions s) <> 0 ->
        s' = s)
    /\ (m_state s' = STOPPED ->
        sessionCount (m_sessions s) = 0
        /\ totalUsers (m_sessions s) = 0
        /\ totalUsers (m_sessions s') = 0
        /\ effects s' = effects s ++ [ServerStopped])
    /\ (sessionCount (m_sessions s) = 0 ->
        totalUsers (m_sessions s) = 0 ->
        m_sessions s' = stopAll (m_sessions s)
        /\ (totalUsers (stopAll (m_sessions s)) = 0 ->
            m_state s' = STOPPED
            /\ effects s' = effects s ++ [ServerStopped])
        /\ (totalUsers (stopAll (m_sessions s)) <> 0 ->
            m_state s' = STOPPING /\ effects s' = effects s))).
  { intros (s' & H1 & H2 & H3 & H4). exists s'.
    repeat (split; [assumption|]). exact stop_STOPPED. }
  destruct (decide (sessionCount (m_sessions s) = 0
                    /\ totalUsers (m_sessions s) = 0)) as [[Hs Hu]|Hbusy].
  - unfold tryAutoStop, stop.
    rewrite bool_decide_eq_true_2 by exact Hrun.
    rewrite Hauto, Hs, Hu, Hsrv. simpl.
    destruct (decide (m_state s = RUNNING)) as [_|]; [|contradiction].
    simpl.
    destruct (totalUsers (stopAll (m_sessions s)) =? 0) eqn:Hu'.
    + apply Z.eqb_eq in Hu'. eexists; split; [reflexivity|]. simpl.
      split; [lia|]. split; [auto|]. intros _ _. split; [reflexivity|].
      split; [auto|]. intros Hne. contradiction.
    + apply Z.eqb_neq in Hu'. eexists; split; [reflexivity|]. simpl.
      split; [lia|]. split; [discriminate|]. intros _ _.
      split; [reflexivity|]. split; [intros Hz; contradiction|auto].
  - exists s. split; [apply tryAutoStop_idle; lia|].
    split; [reflexivity|]. split; [congruence|]. intros Hs Hu. tauto.
Qed.

(** *** The [server] resource *)

Lemma every_key_is_a_setting (key : ConfigKey) : key ∈ settings.
Proof. destruct key; unfold settings; set_solver. Qed.

Lemma update_is_write_of_present request keys : forall c : ServerConfig,
  foldl (updateSetting request) c keys
  = foldl (writeSetting request) c
      (List.filter (fun key => contains request (name key)) keys).
Proof.
  induction keys as [|key keys IH]; intros c; [reflexivity|].
  simpl. rewrite IH. unfold updateSetting.
  now destruct (contains request (name key)).
Qed.

Section Store.

(** What makes the configuration a key/value store: writing one key does
    not change what is read under another. *)
Hypothesis frame : forall (k k' : ConfigKey) (v : string) (c : ServerConfig),
  k <> k' -> getConfigVariant k (setConfigString k' v c) = getConfigVariant k c.

Lemma update_keeps_absent request key keys : forall c : ServerConfig,
  contains request (name key) = false ->
  getConfigVariant key (foldl (updateSetting request) c keys)
  = getConfigVariant key c.
Proof.
  induction keys as [|key' keys IH]; intros c Habsent; [reflexivity|].
  simpl. rewrite IH by exact Habsent. unfold updateSetting.
  destruct (contains request (name key')) eqn:Hpresent; [|reflexivity].
  apply frame. congruence.
Qed.

End Store.

Section Names.

(** The keys have names of their own. *)
Hypothesis distinct : forall k k' : ConfigKey, name k = name k' -> k = k'.

Lemma report_has_key (c : ServerConfig) key keys : forall acc,
  key ∈ keys ->
  foldl (reportSetting c) acc keys !! name key
  = Some (fromVariant (getConfigVariant key c)).
Proof.
  induction keys as [|key' keys IH] using rev_ind; intros acc Hin.
  - now apply elem_of_nil in Hin.
  - rewrite foldl_app. simpl. unfold reportSetting at 1.
    destruct (decide (key' = key)) as [->|Hne].
    + apply lookup_insert_eq.
    + rewrite lookup_insert_ne by (intros Heq; apply Hne, distinct, Heq).
      apply IH. apply elem_of_app in Hin as [Hin|Hin]; [exact Hin|].
      apply list_elem_of_singleton in Hin. congruence.
Qed.

End Names.

Lemma report_has_only_keys (c : ServerConfig) k keys : forall acc,
  is_Some (foldl (reportSetting c) acc keys !! k) ->
  is_Some (acc !! k) \/ exists key, k = name key.
Proof.
  induction keys as [|key keys IH]; intros acc Hsome; [now left|].
  simpl in Hsome. apply IH in Hsome as [Hsome|Hkey]; [|now right].
  unfold reportSetting in Hsome.
  destruct (decide (name key = k)) as [<-|Hne]; [right; eauto|].
  rewrite lookup_insert_ne in Hsome by exact Hne. now left.
Qed.

(** C8.  An [Update] on [server] calls [setConfigString] for the keys
    that are in the request, in the order of the table, and for no other;
    every key absent from the request reads as before; the call returns
    [Ok] with an object that holds all the settings, and only them, as
    they read afterwards.  The store is any in which writing one key
    leaves the others alone, and the keys have distinct names. *)
Theorem update_writes_only_present_keys request (s : MultiServer) :
  (forall (k k' : ConfigKey) (v : string) (c : ServerConfig),
     k <> k' ->
     getConfigVariant k (setConfigString k' v c) = getConfigVariant k c) ->
  (forall k k' : ConfigKey, name k = name k' -> k = k') ->
  exists result c',
    callJsonApi Update ["server"%string] request s
    = (JsonApiOk (ObjectDocument result), with_config c' s)
    /\ status (fst (callJsonApi Update ["server"%string] request s)) = Ok
    /\ c' = foldl (writeSetting request) (m_config s)
              (List.filter (fun key => contains request (name key)) settings)
    /\ (forall key, contains request (name key) = false ->
         getConfigVariant key c' = getConfigVariant key (m_config s))
    /\ (forall key,
         result !! name key = Some (fromVariant (getConfigVariant key c')))
    /\ (forall k, is_Some (result !! k) -> exists key, k = name key).
Proof.
  intros frame distinct.
  eexists _, (foldl (updateSetting request) (m_config s) settings).
  split; [reflexivity|]. split; [reflexivity|].
  split; [apply update_is_write_of_present|].
  split; [intros key; now apply update_keeps_absent|].
  split.
  - intros key. apply report_has_key; [exact distinct|].
    apply every_key_is_a_setting.
  - intros k Hsome. apply report_has_only_keys in Hsome as [Hsome|Hkey].
    + rewrite lookup_empty in Hsome. now destruct Hsome.
    + exact Hkey.
Qed.

(** A [Get] changes nothing. *)
Lemma get_reads_only request (s : MultiServer) :
  snd (callJsonApi Get ["server"%string] request s) = s.
Proof. now destruct s. Qed.

(** *** The [banlist] resource *)

(** C9, as amended.  A [Create] on [banlist] whose address is not valid,
    or whose expiration does not parse, adds no ban: the server is left as
    it was.  With a configuration that is a database the call returns
    [BadRequest]; with any other it returns [NotFound]. *)
Theorem create_ban_rejected request (s : MultiServer) :
  addressIsNull (hostAddress (toString (valueAt request "ip"))) = true
  \/ dateTimeIsNull
       (dateTimeFromString (toString (valueAt request "expiration"))
                           "yyyy-MM-dd HH:mm:ss") = true ->
  exists r,
    callJsonApi Create ["banlist"%string] request s = (r, s)
    /\ (isDatabase (m_config s) = true -> status r = BadRequest)
    /\ (isDatabase (m_config s) = false -> r = JsonApiNotFound).
Proof.
  intros Hbad. cbn [callJsonApi popApiPath].
  destruct (decide ("banlist"%string = "server"%string)) as [Heq|_];
    [discriminate|].
  destruct (decide ("banlist"%string = "sessions"%string)) as [Heq|_];
    [discriminate|].
  destruct (decide ("banlist"%string = "banlist"%string)) as [_|Hne];
    [|contradiction].
  unfold banlistJsonApi.
  destruct (isDatabase (m_config s)); simpl.
  - destruct (addressIsNull _) eqn:Hip.
    + eexists; split; [reflexivity|]. now split.
    + destruct Hbad as [Hbad|Hbad]; [discriminate|]. rewrite Hbad.
      eexists; split; [reflexivity|]. now split.
  - eexists; split; [reflexivity|]. now split.
Qed.

End ServerProperties.

(** *** The server claims on the deployment *)

Section ServerDeployment.

Import Server Deployment.

Lemma keyName_distinct (k k' : ConfigKey) : name k = name k' -> k = k'.
Proof. destruct k, k'; simpl; intros Heq; (reflexivity || discriminate). Qed.

Lemma store_frame (k k' : ConfigKey) (v : string) (c : Store) :
  k <> k' -> getConfigVariant k (setConfigString k' v c) = getConfigVariant k c.
Proof.
  intros Hne. simpl. rewrite lookup_insert_ne; [reflexivity|].
  intros Heq. apply Hne. symmetry. now apply keyName_distinct.
Qed.

(** C6 on the deployment: the banned address knocks. *)
Lemma banned_peer_is_kicked_witness :
  exists s',
    newClient (vacant true) = Some s'
    /\ m_config s' = m_config (vacant true)
    /\ m_state s' = m_state (vacant true)
    /\ (isAddressBanned (m_config (vacant true))
          (peerAddress (peer "10.0.0.66")) = true ->
        m_sessions s' = m_sessions (vacant true)
        /\ effects s'
           = effects (vacant true)
             ++ [DisconnectKick {| socket := peer "10.0.0.66" |} "BANNED"])
    /\ (isAddressBanned (m_config (vacant true))
          (peerAddress (peer "10.0.0.66")) = false ->
        m_sessions s'
        = addClient {| socket := peer "10.0.0.66" |} (m_sessions (vacant true))
        /\ effects s'
           = effects (vacant true)
             ++ [NotifyStatus (totalUsers (m_sessions s'))
                              (sessionCount (m_sessions s'))]).
Proof.
  apply (banned_peer_is_kicked (vacant true)
           {| listening := true; pending := [peer "10.0.0.66"] |}
           (peer "10.0.0.66") []);
    reflexivity.
Defined.

(** C7 on the deployment: nobody is left. *)
Lemma autostop_exactly_when_vacant_witness :
  let s := vacant true in
  exists s',
    tryAutoStop s = Some s'
    /\ (sessionCount (m_sessions s) <> 0 \/ totalUsers (m_sessions s) <> 0 ->
        s' = s)
    /\ (m_state s' = STOPPED ->
        sessionCount (m_sessions s) = 0
        /\ totalUsers (m_sessions s) = 0
        /\ totalUsers (m_sessions s') = 0
        /\ effects s' = effects s ++ [ServerStopped])
    /\ (sessionCount (m_sessions s) = 0 ->
        totalUsers (m_sessions s) = 0 ->
        m_sessions s' = stopAll (m_sessions s)
        /\ (totalUsers (stopAll (m_sessions s)) = 0 ->
            m_state s' = STOPPED
            /\ effects s' = effects s ++ [ServerStopped])
        /\ (totalUsers (stopAll (m_sessions s)) <> 0 ->
            m_state s' = STOPPING /\ effects s' = effects s))
    /\ (forall t t' : @MultiServer _ Store Registry,
          stop t = Some t' ->
          m_state t <> STOPPED ->
          m_state t' = STOPPED ->
          totalUsers (m_sessions t') = 0
          /\ effects t' = effects t ++ [ServerStopped]).
Proof.
  apply (autostop_exactly_when_vacant (vacant true)
           {| listening := true; pending := [peer "10.0.0.66"] |});
    reflexivity.
Defined.

(** C8 on the deployment: the title alone is updated. *)
Lemma update_writes_only_present_keys_witness :
  exists result c',
    callJsonApi Update ["server"%string] retitle busy
    = (JsonApiOk (ObjectDocument result), with_config c' busy)
    /\ status (fst (callJsonApi Update ["server"%string] retitle busy)) = Ok
    /\ c' = foldl (writeSetting retitle) (m_config busy)
              (List.filter (fun key => contains retitle (name key)) settings)
    /\ (forall key, contains retitle (name key) = false ->
         getConfigVariant key c' = getConfigVariant key (m_config busy))
    /\ (forall key,
         result !! name key = Some (fromVariant (getConfigVariant key c')))
    /\ (forall k, is_Some (result !! k) -> exists key, k = name key).
Proof.
  apply (update_writes_only_present_keys retitle busy);
    [exact store_frame | exact keyName_distinct].
Defined.

(** C9 on the deployment: a ban until "tomorrow", asked of a server with
    a database. *)
Lemma create_ban_rejected_witness :
  exists r,
    callJsonApi Create ["banlist"%string] banUntilTomorrow (vacant true)
    = (r, vacant true)
    /\ (isDatabase (m_config (vacant true)) = true -> status r = BadRequest)
    /\ (isDatabase (m_config (vacant true)) = false -> r = JsonApiNotFound).
Proof.
  apply (create_ban_rejected banUntilTomorrow (vacant true)).
  right. vm_compute. reflexivity.
Defined.

(** C9 as stated fails: asked of a server whose configuration is not a
    database, the same request is answered [NotFound], not
    [BadRequest]. *)
Lemma create_ban_without_database :
  dateTimeIsNull
    (dateTimeFromString (toString (valueAt banUntilTomorrow "expiration"))
                        "yyyy-MM-dd HH:mm:ss") = true
  /\ callJsonApi Create ["banlist"%string] banUntilTomorrow (vacant false)
     = (JsonApiNotFound, vacant false)
  /\ status (fst (callJsonApi Create ["banlist"%string] banUntilTomorrow
                    (vacant false))) <> BadRequest.
Proof.
  split; [vm_compute; reflexivity|].
  split; [reflexivity|]. discriminate.
Qed.

(** The runs behind the statements above. *)
Example banned_peer_run :
  effects <$> newClient (vacant true)
  = Some [DisconnectKick {| socket := peer "10.0.0.66" |} "BANNED"].
Proof. reflexivity. Qed.

Example welcome_peer_run :
  (fun s => (lobby (m_sessions s), effects s)) <$> newClient busy
  = Some ([{| socket := peer "10.0.0.7" |}], [NotifyStatus 2 1]).
Proof. reflexivity. Qed.

Example busy_server_keeps_running : tryAutoStop busy = Some busy.
Proof. reflexivity. Qed.

Example vacant_server_stops :
  (fun s => (m_state s, effects s)) <$> tryAutoStop (vacant true)
  = Some (STOPPED, [ServerStopped]).
Proof. reflexivity. Qed.

Example retitle_run :
  let '(r, s') := callJsonApi Update ["server"%string] retitle busy in
  (status r,
   getConfigVariant ServerTitle (m_config s'),
   getConfigVariant WelcomeMessage (m_config s'))
  = (Ok, "Sketch night"%string, ""%string).
Proof. vm_compute. reflexivity. Qed.

Example ban_until_tomorrow_run :
  callJsonApi Create ["banlist"%string] banUntilTomorrow (vacant true)
  = (JsonApiErrorResult BadRequest "Valid expiration time required",
     vacant true).
Proof. vm_compute. reflexivity. Qed.

Example ban_without_address_run :
  callJsonApi Create ["banlist"%string]
    {[ "expiration"%string := JString "2031-01-01 00:00:00" ]} (vacant true)
  = (JsonApiErrorResult BadRequest "Valid IP address required", vacant true).
Proof. reflexivity. Qed.

Example ban_until_2031_run :
  let request := <[ "expiration"%string := JString "2031-01-01 00:00:00" ]>
                   banUntilTomorrow in
  let '(r, s') := callJsonApi Create ["banlist"%string] request (vacant true) in
  (status r, ban_ip <$> bans (m_config s'))
  = (Ok, ["10.0.0.66"%string; "10.0.0.9"%string]).
Proof. reflexivity. Qed.

End ServerDeployment.

(* ================================================================== *)
(** * Properties of the client's runs *)
(* ================================================================== *)

Section ClientRunProperties.

Import Client ClientRuns.

Lemma u32_small z : 0 <= z < 2 ^ 32 -> u32 z = z.
Proof. intros Hz. unfold u32. now apply Z.mod_small. Qed.

Lemma u32_le z : 0 <= z -> 0 <= u32 z <= z.
Proof.
  intros Hz. unfold u32. split.
  - apply Z.mod_pos_bound. lia.
  - apply Z.mod_le; lia.
Qed.

(** *** Uploading *)

Lemma chunkCount_zero r : chunkCount r = 0%nat -> r = 0%nat.
Proof. unfold chunkCount. intros Hc. apply Nat.div_small_iff in Hc; lia. Qed.

Lemma chunkCount_step r :
  (0 < r)%nat -> chunkCount r = S (chunkCount (r - Nat.min 4096 r)).
Proof.
  unfold chunkCount. intros Hr.
  destruct (Nat.le_gt_cases r 4096) as [Hle|Hgt].
  - rewrite Nat.min_r by exact Hle. rewrite Nat.sub_diag.
    replace (r + 4095)%nat with ((r - 1) + 1 * 4096)%nat by lia.
    rewrite Nat.div_add by lia. rewrite (Nat.div_small (r - 1)) by lia.
    reflexivity.
  - rewrite Nat.min_l by lia.
    replace (r + 4095)%nat with ((r - 4096 + 4095) + 1 * 4096)%nat by lia.
    rewrite Nat.div_add by lia. lia.
Qed.

Lemma sendRasterChunk_done st :
  Z.of_nat (length (raster_ st)) < 2 ^ 31 ->
  rasteroffset_ st = Z.of_nat (length (raster_ st)) ->
  sendRasterChunk st = Some (releaseRaster (with_rasteroffset 0 st)).
Proof.
  intros Hlen Ho. unfold sendRasterChunk. rewrite Ho.
  change (1024 * 4) with 4096.
  rewrite !u32_small by lia.
  destruct (Z.ltb_spec (Z.of_nat (length (raster_ st)))
              (Z.of_nat (length (raster_ st)) + 4096)) as [_|Hge]; [|lia].
  now rewrite Z.sub_diag.
Qed.

Lemma sendRasterChunk_next st (o : nat) :
  Z.of_nat (length (raster_ st)) < 2 ^ 31 ->
  rasteroffset_ st = Z.of_nat o ->
  (o < length (raster_ st))%nat ->
  let len := Z.of_nat (length (raster_ st)) in
  let c := Nat.min 4096 (length (raster_ st) - o) in
  sendRasterChunk st
  = Some (emit (rasterSent (u32 (100 * Z.of_nat (o + c)) / len))
            (record (SendRaster (s_id (info_ st)) (Z.of_nat o) (Z.of_nat c) len
                       (take c (drop o (raster_ st))))
               (with_rasteroffset (Z.of_nat (o + c)) st))).
Proof.
  intros Hlen Ho Hlt len c. unfold sendRasterChunk. rewrite Ho. fold len.
  change (1024 * 4) with 4096.
  rewrite (u32_small len), (u32_small (Z.of_nat o + 4096)) by lia.
  assert (Hc : (if len <? Z.of_nat o + 4096
                then u32 (len - Z.of_nat o) else 4096) = Z.of_nat c).
  { destruct (Z.ltb_spec len (Z.of_nat o + 4096)).
    - rewrite u32_small by lia. subst c len. lia.
    - subst c len. lia. }
  rewrite Hc.
  destruct (Z.eqb_spec (Z.of_nat c) 0) as [H0|_]; [subst c; lia|].
  destruct (Z.leb_spec (Z.of_nat o + Z.of_nat c) len) as [_|Hgt];
    [|subst c len; lia].
  rewrite !Nat2Z.id.
  unfold emit, record, with_rasteroffset.
  cbn [info_ users_ raster_ rasteroffset_ lock_ bufferdrawing_ drawbuffer_
       usersessions_ trace].
  rewrite (u32_small (Z.of_nat o + Z.of_nat c)) by (subst c len; lia).
  now rewrite <- Nat2Z.inj_add.
Qed.

Lemma sentChunks_app xs ys :
  sentChunks (xs ++ ys) = sentChunks xs ++ sentChunks ys.
Proof. unfold sentChunks. apply flat_map_app. Qed.

Lemma acknowledged_S n st st1 :
  sendRasterChunk st = Some st1 ->
  acknowledged (S n) st = acknowledged n st1.
Proof. intros Hstep. cbn [acknowledged handleAck]. now rewrite Hstep. Qed.

(** The upload from offset [o] on: [k] chunks, then the call that finds
    nothing left and releases the raster. *)
Lemma upload_run R :
  Z.of_nat (length R) < 2 ^ 31 ->
  forall k o st,
    raster_ st = R ->
    rasteroffset_ st = Z.of_nat o ->
    (o <= length R)%nat ->
    chunkCount (length R - o) = k ->
    exists st' events,
      acknowledged (S k) st = Some st'
      /\ trace st' = trace st ++ events
      /\ slices R o (sentChunks events)
      /\ length (sentChunks events) = k
      /\ Forall (fun chunk => r_length chunk <= 4096
                              /\ r_session_id chunk = s_id (info_ st))
                (sentChunks events)
      /\ raster_ st' = [] /\ rasteroffset_ st' = 0
      /\ info_ st' = info_ st
      /\ bufferdrawing_ st' = bufferdrawing_ st
      /\ drawbuffer_ st' = drawbuffer_ st.
Proof.
  intros Hlen k. induction k as [|k IH]; intros o st HR Ho Hle Hk.
  - apply chunkCount_zero in Hk.
    assert (o = length R) as -> by lia.
    exists (releaseRaster (with_rasteroffset 0 st)), [].
    cbn [acknowledged handleAck].
    rewrite sendRasterChunk_done by (rewrite HR; assumption).
    rewrite app_nil_r. simpl. repeat split; auto.
  - assert (Hlt : (o < length R)%nat).
    { destruct (Nat.eq_dec o (length R)) as [->|]; [|lia].
      rewrite Nat.sub_diag in Hk. discriminate. }
    rewrite chunkCount_step in Hk by lia. apply Nat.succ_inj in Hk.
    assert (Hstep := sendRasterChunk_next st o).
    rewrite HR in Hstep. specialize (Hstep Hlen Ho Hlt). cbv zeta in Hstep.
    remember (Nat.min 4096 (length R - o)) as c eqn:Hc.
    match type of Hstep with _ = Some ?s => set (st1 := s) in * end.
    rewrite (acknowledged_S (S k) st st1 Hstep).
    destruct (IH (o + c)%nat st1) as (st' & events & Hrun & Ht & Hs & Hn & Hall
                                      & Hr' & Ho' & Hi' & Hb' & Hq');
      [exact HR|reflexivity|lia| |].
    { rewrite <- Hk. f_equal. lia. }
    exists st'. eexists. split; [exact Hrun|].
    split; [rewrite Ht; subst st1; simpl; rewrite <- !app_assoc; reflexivity|].
    cbn [app sentChunks flat_map slices length r_offset r_length r_size
         r_data r_session_id].
    fold (sentChunks events). rewrite Nat2Z.id.
    repeat split; auto; try lia.
    constructor; [split; [simpl; lia|reflexivity]|exact Hall].
Qed.

(** *** Downloading *)

Lemma slices_concat R : forall chunks o,
  slices R o chunks -> (o <= length R)%nat ->
  concat (r_data <$> chunks) = drop o R.
Proof.
  induction chunks as [|chunk rest IH]; intros o Hs Ho.
  - simpl in Hs. subst o. now rewrite drop_all.
  - destruct Hs as (_ & _ & _ & Hle & Hdata & Hs).
    rewrite fmap_cons. cbn [concat]. rewrite (IH _ Hs Hle), Hdata.
    rewrite <- drop_drop. apply take_drop.
Qed.

(** One chunk of a cut, as [handleRaster] sees it. *)
Lemma slice_fields R o chunk rest :
  Z.of_nat (length R) < 2 ^ 32 ->
  slices R o (chunk :: rest) ->
  let len := Z.to_nat (r_length chunk) in
  (0 < len)%nat
  /\ r_length chunk = Z.of_nat len
  /\ u32 (r_offset chunk + r_length chunk) = Z.of_nat (o + len)
  /\ mkByteArray (r_data chunk) (r_length chunk) = take len (drop o R)
  /\ (r_size chunk =? 0) = false
  /\ (r_offset chunk =? 0) = (o =? 0)%nat.
Proof.
  intros HR (Hoff & Hsize & Hpos & Hle & Hdata & _) len.
  assert (Hlen : r_length chunk = Z.of_nat len) by (subst len; lia).
  split; [subst len; lia|]. split; [exact Hlen|].
  split; [rewrite Hoff, Hlen, u32_small; lia|].
  split; [unfold mkByteArray; fold len; rewrite Hdata; apply take_idemp|].
  split; [apply Z.eqb_neq; lia|].
  rewrite Hoff. destruct o; reflexivity.
Qed.

(** The download from offset [o] on, into a state that holds the first
    [o] bytes. *)
Lemma download_run R :
  Z.of_nat (length R) < 2 ^ 32 ->
  forall chunks o st fuel,
    slices R o chunks ->
    (o < length R)%nat ->
    (o <> 0%nat -> raster_ st = take o R) ->
    (length (drawbuffer_ st) <= fuel)%nat ->
    exists st',
      receiveChunks fuel chunks st = Some st'
      /\ raster_ st' = R
      /\ bufferdrawing_ st' = false
      /\ drawbuffer_ st' = []
      /\ trace st' = trace st ++ (progressOf <$> chunks) ++ replay (drawbuffer_ st)
      /\ exists init final,
           chunks = init ++ [final]
           /\ forallb (fun chunk => negb (completes chunk)) init = true
           /\ completes final = true.
Proof.
  intros HR chunks.
  induction chunks as [|chunk rest IH]; intros o st fuel Hs Ho Hraster Hfuel.
  - simpl in Hs. lia.
  - destruct (slice_fields R o chunk rest HR Hs)
      as (Hpos & Hlen & Hsum & Hdata & Hsize & Hzero).
    pose proof Hs as (Hoff & Hsz & _ & Hle & _ & Hrest).
    set (len := Z.to_nat (r_length chunk)) in *.
    assert (Hstored :
      raster_ (if r_offset chunk =? 0 then with_raster [] st else st)
      ++ mkByteArray (r_data chunk) (r_length chunk) = take (o + len) R).
    { rewrite Hdata, Hzero, <- take_take_drop. f_equal.
      destruct o; [reflexivity|]. simpl (S o =? 0)%nat. cbv iota.
      now apply Hraster. }
    cbn [receiveChunks]. unfold handleRaster. rewrite Hsize, Hsum, Hsz.
    destruct (Z.ltb_spec (Z.of_nat (o + len)) (Z.of_nat (length R)))
      as [Hpart|Hfull].
    + assert (Hnc : completes chunk = false).
      { unfold completes. rewrite Hsize, Hsum, Hsz. simpl.
        apply negb_false_iff, Z.ltb_lt, Hpart. }
      match goal with
      | |- context [receiveChunks fuel rest ?s] => set (st1 := s)
      end.
      destruct (IH (o + len)%nat st1 fuel Hrest) as
        (st' & Hrun & Hr' & Hb' & Hq' & Ht' & init & final & Hsplit & Hinit & Hfin);
        [lia| | |].
      { intros _. subst st1. cbn [raster_ emit record with_raster].
        exact Hstored. }
      { subst st1. cbn [drawbuffer_ emit record with_raster].
        destruct (r_offset chunk =? 0); exact Hfuel. }
      exists st'. split; [exact Hrun|]. repeat (split; [assumption|]).
      split.
      * rewrite Ht'. subst st1. cbn [trace emit record with_raster drawbuffer_].
        assert (trace (if r_offset chunk =? 0 then with_raster [] st else st)
                = trace st) as -> by (now destruct (r_offset chunk =? 0)).
        assert (drawbuffer_ (if r_offset chunk =? 0 then with_raster [] st else st)
                = drawbuffer_ st) as -> by (now destruct (r_offset chunk =? 0)).
        rewrite fmap_cons. unfold progressOf at 2.
        rewrite Hnc, Hsum, Hsz. now rewrite <- !app_assoc.
      * exists (chunk :: init), final. rewrite Hsplit.
        split; [reflexivity|]. simpl. now rewrite Hnc, Hinit.
    + assert (o + len = length R)%nat as Hend by lia.
      assert (rest = []) as ->.
      { destruct rest as [|next rest]; [reflexivity|].
        destruct Hrest as (_ & _ & Hpos' & Hle' & _). lia. }
      assert (Hc : completes chunk = true).
      { unfold completes. rewrite Hsize, Hsum, Hsz. simpl.
        apply negb_true_iff, Z.ltb_ge, Hfull. }
      rewrite flushDrawBuffer_spec
        by (destruct (r_offset chunk =? 0); exact Hfuel).
      eexists. split; [reflexivity|].
      cbn [raster_ bufferdrawing_ drawbuffer_ trace flushed emit record
           with_raster].
      split; [rewrite Hstored, Hend; now apply take_ge|].
      split; [reflexivity|]. split; [reflexivity|].
      split.
      * assert (trace (if r_offset chunk =? 0 then with_raster [] st else st)
                = trace st) as -> by (now destruct (r_offset chunk =? 0)).
        assert (drawbuffer_ (if r_offset chunk =? 0 then with_raster [] st else st)
                = drawbuffer_ st) as -> by (now destruct (r_offset chunk =? 0)).
        rewrite fmap_cons, fmap_nil. unfold progressOf. rewrite Hc.
        now rewrite <- !app_assoc.
      * exists [], chunk. now repeat split.
Qed.

(** *** The snapshot, end to end *)

(** X1.  An upload, driven by one raster acknowledgement per chunk, sends
    the raster as consecutive chunks of at most 4096 bytes that carry the
    session id and announce the whole size; put end to end their data is
    the raster.  The acknowledgement of the last chunk sends nothing more
    and ends the upload: the raster is released and the offset is back at
    0.  Buffering is not touched. *)
Theorem upload_sends_the_raster R st :
  Z.of_nat (length R) < 2 ^ 31 ->
  exists st' events,
    upload R (chunkCount (length R)) st = Some st'
    /\ trace st' = trace st ++ events
    /\ length (sentChunks events) = chunkCount (length R)
    /\ slices R 0 (sentChunks events)
    /\ concat (r_data <$> sentChunks events) = R
    /\ Forall (fun chunk => r_length chunk <= 4096
                            /\ r_session_id chunk = s_id (info_ st))
              (sentChunks events)
    /\ raster_ st' = [] /\ rasteroffset_ st' = 0
    /\ isUploading st' = false
    /\ bufferdrawing_ st' = bufferdrawing_ st
    /\ drawbuffer_ st' = drawbuffer_ st.
Proof.
  intros HR.
  destruct (upload_run R HR (chunkCount (length R)) 0%nat
              (with_rasteroffset 0 (with_raster R st)))
    as (st' & events & Hrun & Ht & Hs & Hn & Hall & Hr & Ho & Hi & Hb & Hq);
    [reflexivity|reflexivity|lia|now rewrite Nat.sub_0_r|].
  exists st', events.
  split; [exact Hrun|]. split; [exact Ht|]. split; [exact Hn|].
  split; [exact Hs|].
  split; [now rewrite (slices_concat R _ 0%nat Hs) by lia|].
  split; [exact Hall|]. split; [exact Hr|]. split; [exact Ho|].
  split; [unfold isUploading; now rewrite Hr|]. now split.
Qed.

(** X2.  Chunks that cut a raster that is not empty into consecutive
    pieces, received in order, leave exactly that raster stored, whatever
    was stored before.  Each chunk but the last is answered with a
    progress signal below 100 and nothing else; the last one is answered
    with 100 and the replay of the queue, after which the member is
    live. *)
Theorem download_reassembles R chunks st fuel :
  R <> [] ->
  Z.of_nat (length R) < 2 ^ 32 ->
  slices R 0 chunks ->
  (length (drawbuffer_ st) <= fuel)%nat ->
  exists st',
    receiveChunks fuel chunks st = Some st'
    /\ raster_ st' = R
    /\ bufferdrawing_ st' = false
    /\ drawbuffer_ st' = []
    /\ trace st' = trace st ++ (progressOf <$> chunks) ++ replay (drawbuffer_ st)
    /\ exists init final,
         chunks = init ++ [final]
         /\ forallb (fun chunk => negb (completes chunk)) init = true
         /\ completes final = true.
Proof.
  intros Hne HR Hs Hfuel.
  apply (download_run R HR chunks 0%nat st fuel Hs); [|done|exact Hfuel].
  destruct R; [done|simpl; lia].
Qed.

(** X3.  What a provider sends when it uploads a raster that is not
    empty, received in that order by a member that is waiting for its
    snapshot, gives the member the provider's raster and makes it live
    with the last chunk. *)
Theorem snapshot_round_trip R provider joiner fuel :
  R <> [] ->
  Z.of_nat (length R) < 2 ^ 31 ->
  (length (drawbuffer_ joiner) <= fuel)%nat ->
  exists provider' events joiner',
    upload R (chunkCount (length R)) provider = Some provider'
    /\ trace provider' = trace provider ++ events
    /\ receiveChunks fuel (sentChunks events) joiner = Some joiner'
    /\ raster_ joiner' = R
    /\ bufferdrawing_ joiner' = false
    /\ drawbuffer_ joiner' = []
    /\ trace joiner'
       = trace joiner ++ (progressOf <$> sentChunks events)
                      ++ replay (drawbuffer_ joiner).
Proof.
  intros Hne HR Hfuel.
  destruct (upload_run R HR (chunkCount (length R)) 0%nat
              (with_rasteroffset 0 (with_raster R provider)))
    as (p' & events & Hrun & Ht & Hs & _);
    [reflexivity|reflexivity|lia|now rewrite Nat.sub_0_r|].
  destruct (download_run R ltac:(lia) (sentChunks events) 0%nat joiner fuel Hs)
    as (j' & Hget & Hr & Hb & Hq & Htj & _);
    [destruct R; [done|simpl; lia]|done|exact Hfuel|].
  exists p', events, j'. auto 10.
Qed.

(** X4.  A raster message is always answered with one progress signal
    first.  It reads 100 exactly when the message completes the transfer,
    and the flush follows; for any other message it lies between 0 and 98,
    nothing follows it, and buffering and the queue stay as they are. *)
Theorem full_progress_only_on_completion fuel msg st :
  (length (drawbuffer_ st) <= fuel)%nat ->
  exists st' percent rest,
    handleRaster fuel msg st = Some st'
    /\ trace st' = trace st ++ Emit (rasterReceived percent) :: rest
    /\ (completes msg = true ->
        percent = 100 /\ rest = replay (drawbuffer_ st)
        /\ bufferdrawing_ st' = false)
    /\ (completes msg = false ->
        0 <= percent <= 98 /\ rest = []
        /\ bufferdrawing_ st' = bufferdrawing_ st
        /\ drawbuffer_ st' = drawbuffer_ st).
Proof.
  intros Hfuel. unfold handleRaster, completes.
  destruct (Z.eqb_spec (r_size msg) 0) as [Hz|Hnz].
  - rewrite flushDrawBuffer_spec by exact Hfuel.
    eexists _, 100, _. split; [reflexivity|].
    split; [simpl; rewrite <- app_assoc; reflexivity|].
    split; [auto|discriminate].
  - set (received := u32 (r_offset msg + r_length msg)).
    assert (0 <= received) by (apply Z.mod_pos_bound; lia).
    destruct (Z.ltb_spec received (r_size msg)) as [Hlt|Hge].
    + eexists _, _, []. split; [reflexivity|].
      split; [destruct (r_offset msg =? 0); reflexivity|].
      split; [discriminate|]. intros _.
      split; [|destruct (r_offset msg =? 0); now repeat split].
      pose proof (u32_le (99 * received) ltac:(lia)) as [Hlo Hhi].
      split; [apply Z.div_pos; lia|].
      apply Z.lt_succ_r. apply Z.div_lt_upper_bound; lia.
    + rewrite flushDrawBuffer_spec
        by (destruct (r_offset msg =? 0); exact Hfuel).
      eexists _, 100, _. split; [reflexivity|].
      split; [destruct (r_offset msg =? 0); simpl;
              rewrite <- app_assoc; reflexivity|].
      split; [|discriminate]. intros _.
      destruct (r_offset msg =? 0); now repeat split.
Qed.

(** *** Nothing lost, nothing twice *)

Lemma applied_app xs ys : applied (xs ++ ys) = applied xs ++ applied ys.
Proof. unfold applied. apply flat_map_app. Qed.

Lemma released_app xs ys : released (xs ++ ys) = released xs ++ released ys.
Proof. unfold released. apply flat_map_app. Qed.

Lemma applied_signalOf msg : applied [Emit (signalOf msg)] = [signalOf msg].
Proof. now destruct msg. Qed.

Lemma applied_replay msgs : applied (replay msgs) = signalOf <$> msgs.
Proof.
  induction msgs as [|msg msgs IH]; [reflexivity|].
  rewrite replay_cons, fmap_cons.
  change (Emit (signalOf msg) :: Delete msg :: replay msgs)
    with ([Emit (signalOf msg)] ++ [Delete msg] ++ replay msgs).
  rewrite !applied_app, applied_signalOf, IH. reflexivity.
Qed.

Lemma released_replay msgs : released (replay msgs) = msgs.
Proof.
  induction msgs as [|msg msgs IH]; [reflexivity|].
  rewrite replay_cons. simpl. now rewrite IH.
Qed.

Lemma silent_refl st : silent st st.
Proof. now repeat split. Qed.

Lemma applied_emit s :
  applied [Emit s] = if isApplication (Emit s) then [s] else [].
Proof. unfold applied. cbn [flat_map]. apply app_nil_r. Qed.

Lemma silent_emit s st :
  isApplication (Emit s) = false -> silent st (emit s st).
Proof.
  intros Hs. unfold silent, emit, record.
  cbn [trace bufferdrawing_ drawbuffer_].
  rewrite applied_app, released_app, applied_emit, Hs.
  cbn [released flat_map]. rewrite !app_nil_r.
  now repeat split.
Qed.

Lemma silent_sendRasterChunk st st' :
  sendRasterChunk st = Some st' -> silent st st'.
Proof.
  unfold sendRasterChunk.
  repeat match goal with
         | |- context [if ?c then _ else _] => destruct c
         end; intros Hrun; try discriminate; injection Hrun as <-;
    unfold silent; simpl; rewrite ?applied_app, ?released_app; simpl;
    rewrite ?app_nil_r; now repeat split.
Qed.

Lemma silent_handleUserInfo isLockedMode msg st :
  silent st (handleUserInfo isLockedMode msg st).
Proof.
  unfold handleUserInfo.
  destruct (ui_event msg); try apply silent_refl;
    try (destruct (users_ st !! ui_user_id msg);
         unfold silent; simpl; rewrite ?applied_app, ?released_app; simpl;
         rewrite ?app_nil_r; now repeat split).
Qed.

Lemma silent_handleSessionEvent null_user msg st :
  silent st (handleSessionEvent null_user msg st).
Proof.
  unfold handleSessionEvent.
  destruct (negb (sev_target msg =? null_user)
            && negb (bool_decide (is_Some (users_ st !! sev_target msg))));
    [apply silent_refl|].
  destruct (sev_action msg), (negb (sev_target msg =? null_user));
    try apply silent_refl;
    unfold silent; simpl; rewrite ?applied_app, ?released_app; simpl;
    rewrite ?app_nil_r; now repeat split.
Qed.

(** A flush that returns has replayed the queue. *)
Lemma drainLoop_live_Some fuel : forall st st',
  bufferdrawing_ st = false ->
  drainLoop fuel st = Some st' -> st' = flushed st.
Proof.
  induction fuel as [|fuel IH]; intros [i u r o l b q us t] st' Hb Hrun;
    simpl in Hb; subst b; destruct q as [|msg rest];
    cbn [drainLoop drawbuffer_] in Hrun; try discriminate;
    try (injection Hrun as <-; unfold flushed; simpl;
         now rewrite app_nil_r).
  rewrite handleBuffered_live in Hrun by reflexivity.
  apply IH in Hrun; [|reflexivity]. rewrite Hrun.
  unfold flushed, record, emit, record, with_drawbuffer.
  cbn [info_ users_ raster_ rasteroffset_ lock_ bufferdrawing_
       drawbuffer_ usersessions_ trace snd].
  rewrite replay_cons. now rewrite <- !app_assoc.
Qed.

Lemma handleRaster_conserves fuel msg st st' :
  handleRaster fuel msg st = Some st' ->
  silent st st'
  \/ (bufferdrawing_ st' = false /\ drawbuffer_ st' = []
      /\ applied (trace st') = applied (trace st) ++ (signalOf <$> drawbuffer_ st)
      /\ released (trace st') = released (trace st) ++ drawbuffer_ st).
Proof.
  intros Hrun.
  destruct (completes msg) eqn:Hc.
  - right. unfold handleRaster in Hrun. unfold completes in Hc.
    assert (exists st0,
              flushDrawBuffer fuel st0 = Some st'
              /\ drawbuffer_ st0 = drawbuffer_ st
              /\ trace st0 = trace st ++ [Emit (rasterReceived 100)])
      as (st0 & Hflush & Hq & Ht).
    { destruct (r_size msg =? 0); [eauto|]. simpl in Hc.
      apply negb_true_iff in Hc. rewrite Hc in Hrun.
      eexists; split; [exact Hrun|].
      destruct (r_offset msg =? 0); now split. }
    unfold flushDrawBuffer in Hflush.
    apply drainLoop_live_Some in Hflush; [|reflexivity]. subst st'.
    cbn [flushed bufferdrawing_ drawbuffer_ trace with_bufferdrawing].
    rewrite Hq, Ht, !applied_app, !released_app, applied_replay,
      released_replay.
    simpl. rewrite !app_nil_r. now repeat split.
  - left. destruct (handleRaster_partial fuel msg st Hc)
      as (st2 & Hrun2 & Hb & Hq & percent & Ht).
    assert (st2 = st') as -> by congruence.
    unfold silent. rewrite Hb, Hq, Ht, applied_app, released_app. simpl.
    rewrite !app_nil_r. now repeat split.
Qed.

Lemma receive_conserves null_user isLockedMode fuel msg st st' :
  tidy st ->
  receive null_user isLockedMode fuel msg st = Some st' ->
  tidy st'
  /\ applied (trace st') ++ (signalOf <$> drawbuffer_ st')
     = applied (trace st)
       ++ (signalOf <$> drawbuffer_ st ++ drawingOps [msg])
  /\ released (trace st') ++ drawbuffer_ st'
     = released (trace st) ++ drawbuffer_ st ++ drawingOps [msg].
Proof.
  intros Htidy Hrun.
  assert (Hsilent : drawingOps [msg] = [] -> silent st st' ->
            tidy st'
            /\ applied (trace st') ++ (signalOf <$> drawbuffer_ st')
               = applied (trace st)
                 ++ (signalOf <$> drawbuffer_ st ++ drawingOps [msg])
            /\ released (trace st') ++ drawbuffer_ st'
               = released (trace st) ++ drawbuffer_ st ++ drawingOps [msg]).
  { intros -> (Hb & Hq & Ha & Hr). unfold tidy.
    rewrite Hb, Hq, Ha, Hr, !app_nil_r. auto. }
  destruct msg as [e|m|m| | |m|m|m];
    rewrite ?receive_drawing in Hrun; cbn [receive] in Hrun.
  - apply Hsilent; [reflexivity|].
    destruct e; simpl in Hrun;
      try (injection Hrun as <-; first [apply silent_refl
                                       |now apply silent_emit]).
    now apply silent_sendRasterChunk.
  - injection Hrun as <-. apply Hsilent; [reflexivity|].
    apply silent_handleUserInfo.
  - apply handleRaster_conserves in Hrun as [Hs|(Hb & Hq & Ha & Hr)];
      [now apply Hsilent|].
    unfold tidy. rewrite Hq, Ha, Hr. simpl. rewrite !app_nil_r. auto.
  - injection Hrun as <-. apply Hsilent; [reflexivity|now apply silent_emit].
  - injection Hrun as <-. apply Hsilent; [reflexivity|now apply silent_emit].
  - injection Hrun as <-. apply Hsilent; [reflexivity|].
    apply silent_handleSessionEvent.
  - injection Hrun as <-. apply Hsilent; [reflexivity|now apply silent_emit].
  - destruct (bufferdrawing_ st) eqn:Hb.
    + rewrite handleBuffered_buffering in Hrun by exact Hb.
      injection Hrun as <-. unfold tidy. simpl.
      rewrite Hb. split; [discriminate|]. now split.
    + rewrite handleBuffered_live in Hrun by exact Hb.
      injection Hrun as <-. unfold tidy. simpl.
      rewrite (Htidy Hb), !applied_app, !released_app. simpl.
      destruct m; simpl; rewrite !app_nil_r; auto.
Qed.

(** X5.  Over any sequence of received messages, starting from a state
    that queues only while buffering, no drawing command is lost,
    repeated or reordered: the commands applied so far followed by the
    ones still queued are the earlier ones followed by the received ones,
    in order of receipt, and the messages released so far followed by the
    queue are exactly the messages that came in.  Once the member is live
    everything received has been applied and released, each once. *)
Theorem drawing_commands_conserved null_user isLockedMode fuel msgs : forall st st',
  tidy st ->
  receiveAll null_user isLockedMode fuel msgs st = Some st' ->
  applied (trace st') ++ (signalOf <$> drawbuffer_ st')
  = applied (trace st) ++ (signalOf <$> drawbuffer_ st ++ drawingOps msgs)
  /\ released (trace st') ++ drawbuffer_ st'
     = released (trace st) ++ drawbuffer_ st ++ drawingOps msgs
  /\ (bufferdrawing_ st' = false ->
      applied (trace st')
      = applied (trace st) ++ (signalOf <$> drawbuffer_ st ++ drawingOps msgs)
      /\ released (trace st')
         = released (trace st) ++ drawbuffer_ st ++ drawingOps msgs).
Proof.
  cut (forall st st',
         tidy st ->
         receiveAll null_user isLockedMode fuel msgs st = Some st' ->
         tidy st'
         /\ applied (trace st') ++ (signalOf <$> drawbuffer_ st')
            = applied (trace st)
              ++ (signalOf <$> drawbuffer_ st ++ drawingOps msgs)
         /\ released (trace st') ++ drawbuffer_ st'
            = released (trace st) ++ drawbuffer_ st ++ drawingOps msgs).
  { intros Hall st st' Htidy Hrun.
    destruct (Hall st st' Htidy Hrun) as (Htidy' & Ha & Hr).
    split; [exact Ha|]. split; [exact Hr|]. intros Hb.
    rewrite (Htidy' Hb) in Ha, Hr. simpl in Ha. rewrite app_nil_r in Ha, Hr.
    now split. }
  induction msgs as [|msg msgs IH]; intros st st' Htidy Hrun;
    cbn [receiveAll] in Hrun.
  - injection Hrun as <-. simpl. rewrite !app_nil_r. auto.
  - destruct (receive null_user isLockedMode fuel msg st) as [st1|] eqn:Hstep;
      [|discriminate].
    destruct (receive_conserves _ _ _ _ _ _ Htidy Hstep) as (Ht1 & Ha1 & Hr1).
    destruct (IH st1 st' Ht1 Hrun) as (Ht' & Ha' & Hr').
    split; [exact Ht'|].
    rewrite (drawingOps_cons msg msgs).
    split.
    + rewrite Ha', fmap_app, app_assoc, Ha1, !fmap_app, <- !app_assoc.
      reflexivity.
    + rewrite Hr', app_assoc, Hr1, <- !app_assoc. reflexivity.
Qed.

(** *** Members *)

Section Members.

Variable null_user : Z.
Variable isLockedMode : Z -> bool.

(** X6.  A user that was not a member, joins and then departs, for
    whichever of the six reasons, leaves the members as they were; in
    between it is a member under the name and with the lock flag of the
    join message.  The two signals are [userJoined] and [userLeft]. *)
Theorem join_then_departure join departure st :
  ui_event join = Join ->
  isDeparture (ui_event departure) = true ->
  ui_user_id departure = ui_user_id join ->
  users_ st !! ui_user_id join = None ->
  let id := ui_user_id join in
  let st1 := handleUserInfo isLockedMode join st in
  let st2 := handleUserInfo isLockedMode departure st1 in
  user id st1 = Some {| u_name := ui_name join; u_id := id;
                        u_locked := isLockedMode (ui_mode join) |}
  /\ users_ st2 = users_ st
  /\ hasUser id st2 = false
  /\ trace st2 = trace st ++ [Emit (userJoined id); Emit (userLeft id)]
  /\ usersessions_ st2 = delete id (usersessions_ st).
Proof.
  intros Hjoin Hdep Hid Hnew id st1 st2.
  assert (Hst1 : st1 = emit (userJoined id)
                         (with_users (<[id := {| u_name := ui_name join;
                                                 u_id := id;
                                                 u_locked := isLockedMode (ui_mode join) |}]>
                                        (users_ st)) st)).
  { subst st1. unfold handleUserInfo. now rewrite Hjoin. }
  assert (Hst2 : st2 = with_usersessions (delete id (usersessions_ st1))
                         (with_users (delete id (users_ st1))
                            (emit (userLeft id) st1))).
  { subst st2. unfold handleUserInfo. rewrite Hid. fold id.
    assert (is_Some (users_ st1 !! id)) as [u Hu].
    { rewrite Hst1. simpl. rewrite lookup_insert_eq. eauto. }
    rewrite Hu. destruct (ui_event departure); try discriminate; reflexivity. }
  split; [rewrite Hst1; unfold user; simpl; apply lookup_insert_eq|].
  assert (Husers : users_ st2 = users_ st).
  { rewrite Hst2, Hst1. simpl. now apply delete_insert_id. }
  split; [exact Husers|].
  split; [unfold hasUser, id; rewrite Husers, Hnew;
          apply bool_decide_eq_false; now intros [? ?]|].
  split; [rewrite Hst2, Hst1; simpl; now rewrite <- app_assoc|].
  rewrite Hst2, Hst1. reflexivity.
Qed.

Lemma drainLoop_users fuel : forall st st',
  drainLoop fuel st = Some st' -> users_ st' = users_ st.
Proof.
  induction fuel as [|n IH]; intros [i u r o l b q us t] st';
    destruct q as [|msg rest]; cbn [drainLoop drawbuffer_]; intros Hrun;
    try discriminate; try (now injection Hrun as <-).
  apply IH in Hrun. rewrite Hrun. simpl.
  destruct msg; simpl;
    unfold handleToolInfo, handleStrokeInfo, handleStrokeEnd; simpl;
    now destruct b.
Qed.

Lemma handleRaster_users fuel msg st st' :
  handleRaster fuel msg st = Some st' -> users_ st' = users_ st.
Proof.
  unfold handleRaster, flushDrawBuffer. intros Hrun.
  repeat match type of Hrun with
         | context [if ?c then _ else _] => destruct c
         end;
    first [ injection Hrun as <-; reflexivity
          | apply drainLoop_users in Hrun; rewrite Hrun; reflexivity ].
Qed.

Lemma sendRasterChunk_users st st' :
  sendRasterChunk st = Some st' -> users_ st' = users_ st.
Proof.
  unfold sendRasterChunk.
  repeat match goal with
         | |- context [if ?c then _ else _] => destruct c
         end; intros Hrun; try discriminate; now injection Hrun as <-.
Qed.

Lemma handleSessionEvent_lookup msg st id :
  users_ (handleSessionEvent null_user msg st) !! id
  = match sev_action msg with
    | Lock =>
        if bool_decide (sev_target msg = id)
           && negb (sev_target msg =? null_user)
        then setLocked true <$> users_ st !! id else users_ st !! id
    | Unlock =>
        if bool_decide (sev_target msg = id)
           && negb (sev_target msg =? null_user)
        then setLocked false <$> users_ st !! id else users_ st !! id
    | _ => users_ st !! id
    end.
Proof.
  unfold handleSessionEvent.
  destruct (Z.eqb_spec (sev_target msg) null_user) as [Hnull|Hnn];
    cbn [negb andb].
  - rewrite !andb_false_r. destruct (sev_action msg); reflexivity.
  - rewrite !andb_true_r.
    destruct (bool_decide (is_Some (users_ st !! sev_target msg))) eqn:Hk;
      cbn [negb].
    + destruct (sev_action msg);
        cbn [users_ emit record with_users with_info]; try reflexivity;
        rewrite lookup_alter;
        (destruct (decide (sev_target msg = id)) as [->|Hne];
         [rewrite bool_decide_eq_true_2 by done
         |rewrite bool_decide_eq_false_2 by done]); reflexivity.
    + apply bool_decide_eq_false in Hk.
      destruct (sev_action msg); try reflexivity;
        (destruct (decide (sev_target msg = id)) as [<-|Hne];
         [rewrite bool_decide_eq_true_2 by done;
          destruct (users_ st !! sev_target msg) eqn:Hu;
          [exfalso; apply Hk; eauto|reflexivity]
         |rewrite bool_decide_eq_false_2 by done; reflexivity]).
Qed.

Lemma receive_member fuel msg st st' id :
  receive null_user isLockedMode fuel msg st = Some st' ->
  hasUser id st' = memberAfter id (hasUser id st) [msg].
Proof.
  intros Hrun. unfold hasUser.
  destruct msg as [e|m|m| | |m|m|m];
    rewrite ?receive_drawing in Hrun; cbn [receive] in Hrun;
    cbn [memberAfter foldl].
  - destruct e; simpl in Hrun; try (now injection Hrun as <-).
    apply sendRasterChunk_users in Hrun. now rewrite Hrun.
  - injection Hrun as <-. unfold handleUserInfo.
    destruct (Z.eqb_spec (ui_user_id m) id) as [->|Hne].
    + destruct (ui_event m); try reflexivity;
        try (simpl; rewrite lookup_insert_eq;
             now apply bool_decide_eq_true);
        destruct (users_ st !! id) eqn:Hu; simpl;
        rewrite ?lookup_delete_eq, ?Hu;
        apply bool_decide_eq_false; now intros [? ?].
    + destruct (ui_event m); try reflexivity;
        try (simpl; now rewrite lookup_insert_ne);
        destruct (users_ st !! ui_user_id m); simpl;
        now rewrite ?lookup_delete_ne.
  - apply handleRaster_users in Hrun. now rewrite Hrun.
  - now injection Hrun as <-.
  - now injection Hrun as <-.
  - injection Hrun as <-. rewrite handleSessionEvent_lookup.
    destruct (sev_action m); try reflexivity;
      destruct (_ && _); try reflexivity;
      apply bool_decide_ext; now rewrite fmap_is_Some.
  - now injection Hrun as <-.
  - injection Hrun as <-.
    destruct (bufferdrawing_ st) eqn:Hb.
    + now rewrite handleBuffered_buffering.
    + now rewrite handleBuffered_live.
Qed.

Lemma memberAfter_cons id before msg msgs :
  memberAfter id before (msg :: msgs)
  = memberAfter id (memberAfter id before [msg]) msgs.
Proof. reflexivity. Qed.

(** X7.  Over any sequence of received messages, a user is a member
    afterwards exactly when its last join or departure among them was a
    join, or, if there was none, when it was a member before.  No other
    message changes who is a member: not a kick or another session
    event, not a user event of an unknown kind. *)
Theorem membership_follows_user_events fuel msgs id : forall st st',
  receiveAll null_user isLockedMode fuel msgs st = Some st' ->
  hasUser id st' = memberAfter id (hasUser id st) msgs.
Proof.
  induction msgs as [|msg msgs IH]; intros st st' Hrun;
    cbn [receiveAll] in Hrun.
  - now injection Hrun as <-.
  - destruct (receive null_user isLockedMode fuel msg st) as [st1|] eqn:Hstep;
      [|discriminate].
    rewrite memberAfter_cons, <- (receive_member _ _ _ _ _ Hstep).
    now apply IH.
Qed.

(** *** Session events *)

(** A session event about a user the client does not know, other than
    the null user, is dropped whatever its action. *)
Lemma session_event_for_stranger msg st :
  sev_target msg <> null_user ->
  users_ st !! sev_target msg = None ->
  handleSessionEvent null_user msg st = st.
Proof.
  intros Hnn Hnone. unfold handleSessionEvent.
  apply Z.eqb_neq in Hnn. rewrite Hnn, Hnone. reflexivity.
Qed.

(** X8.  A session event changes no member but its target, and of the
    target only the lock flag: [Lock] sets it and [Unlock] clears it, when
    the target is not the null user.  With the null user as target it is
    the session lock that is set or cleared and no member changes.
    [Kick] and [Delegate] change no member and no lock. *)
Theorem session_event_touches_only_its_target msg st id :
  let st' := handleSessionEvent null_user msg st in
  users_ st' !! id
  = match sev_action msg with
    | Lock =>
        if bool_decide (sev_target msg = id)
           && negb (sev_target msg =? null_user)
        then setLocked true <$> users_ st !! id else users_ st !! id
    | Unlock =>
        if bool_decide (sev_target msg = id)
           && negb (sev_target msg =? null_user)
        then setLocked false <$> users_ st !! id else users_ st !! id
    | _ => users_ st !! id
    end
  /\ lock_ st'
     = match sev_action msg with
       | Lock => if sev_target msg =? null_user then true else lock_ st
       | Unlock => if sev_target msg =? null_user then false else lock_ st
       | _ => lock_ st
       end.
Proof.
  split; [apply handleSessionEvent_lookup|].
  unfold handleSessionEvent.
  destruct (sev_target msg =? null_user); cbn [negb andb].
  - now destruct (sev_action msg).
  - destruct (negb (bool_decide (is_Some (users_ st !! sev_target msg))));
      destruct (sev_action msg); reflexivity.
Qed.

Lemma drainLoop_info fuel : forall st st',
  drainLoop fuel st = Some st' -> info_ st' = info_ st /\ lock_ st' = lock_ st.
Proof.
  induction fuel as [|n IH]; intros [i u r o l b q us t] st';
    destruct q as [|msg rest]; cbn [drainLoop drawbuffer_]; intros Hrun;
    try discriminate; try (now injection Hrun as <-).
  apply IH in Hrun as [Hi Hl]. rewrite Hi, Hl. simpl.
  destruct msg; simpl;
    unfold handleToolInfo, handleStrokeInfo, handleStrokeEnd; simpl;
    now destruct b.
Qed.

Lemma receive_info fuel msg st st' :
  isSessionEvent msg = false ->
  receive null_user isLockedMode fuel msg st = Some st' ->
  info_ st' = info_ st /\ lock_ st' = lock_ st.
Proof.
  intros Hmsg Hrun.
  destruct msg as [e|m|m| | |m|m|m]; try discriminate;
    rewrite ?receive_drawing in Hrun; cbn [receive] in Hrun.
  - destruct e; simpl in Hrun; try (now injection Hrun as <-).
    unfold sendRasterChunk in Hrun.
    repeat match type of Hrun with
           | context [if ?c then _ else _] => destruct c
           end; try discriminate; now injection Hrun as <-.
  - injection Hrun as <-. unfold handleUserInfo.
    destruct (ui_event m); try (now split);
      destruct (users_ st !! ui_user_id m); now split.
  - unfold handleRaster, flushDrawBuffer in Hrun.
    repeat match type of Hrun with
           | context [if ?c then _ else _] => destruct c
           end;
      first [ injection Hrun as <-; now split
            | apply drainLoop_info in Hrun as [-> ->]; now split ].
  - now injection Hrun as <-.
  - now injection Hrun as <-.
  - now injection Hrun as <-.
  - injection Hrun as <-.
    destruct (bufferdrawing_ st) eqn:Hb.
    + now rewrite handleBuffered_buffering.
    + now rewrite handleBuffered_live.
Qed.

(** X9.  The session's description, its owner included, and the session
    lock change with session events only: over any sequence of received
    messages without one they are what they were. *)
Theorem only_session_events_change_owner_and_lock fuel msgs : forall st st',
  forallb (fun msg => negb (isSessionEvent msg)) msgs = true ->
  receiveAll null_user isLockedMode fuel msgs st = Some st' ->
  info_ st' = info_ st /\ lock_ st' = lock_ st.
Proof.
  induction msgs as [|msg msgs IH]; intros st st' Hall Hrun;
    cbn [receiveAll] in Hrun.
  - now injection Hrun as <-.
  - simpl in Hall. apply andb_true_iff in Hall as [Hmsg Hall].
    apply negb_true_iff in Hmsg.
    destruct (receive null_user isLockedMode fuel msg st) as [st1|] eqn:Hstep;
      [|discriminate].
    destruct (receive_info _ _ _ _ Hmsg Hstep) as [Hi Hl].
    destruct (IH st1 st' Hall Hrun) as [Hi' Hl']. split; congruence.
Qed.

End Members.

(** *** What is sent and what arrives *)

Lemma to_short_wire x :
  - 2 ^ 15 <= to_short (x mod 2 ^ 16) < 2 ^ 15
  /\ (to_short (x mod 2 ^ 16) = x <-> - 2 ^ 15 <= x < 2 ^ 15).
Proof.
  unfold to_short. cbv zeta. rewrite Z.mod_mod by lia.
  pose proof (Z.mod_pos_bound x (2 ^ 16) ltac:(lia)) as Hw.
  pose proof (Z.div_mod x (2 ^ 16) ltac:(lia)) as Hx.
  destruct (Z.ltb_spec (x mod 2 ^ 16) (2 ^ 15)); split; lia.
Qed.

(** X10.  A stroke point sent with [sendStrokeInfo] and handled by
    [handleStrokeInfo], under whatever user id the message comes back
    with, carries the session id and arrives with its coordinates intact
    exactly when they fit a signed 16-bit integer; any other coordinate
    arrives wrapped into that range. *)
Theorem stroke_coordinates_round_trip pressureByte point st user :
  forall session x y pressure,
    sendStrokeInfo pressureByte point st = OutStrokeInfo session x y pressure ->
    let msg := {| si_session_id := session; si_user_id := user;
                  si_x := x; si_y := y; si_pressure := pressure |} in
    session = s_id (info_ st)
    /\ (px (pointOf msg) = px point <-> - 2 ^ 15 <= px point < 2 ^ 15)
    /\ (py (pointOf msg) = py point <-> - 2 ^ 15 <= py point < 2 ^ 15)
    /\ - 2 ^ 15 <= px (pointOf msg) < 2 ^ 15
    /\ - 2 ^ 15 <= py (pointOf msg) < 2 ^ 15
    /\ forall receiver,
         bufferdrawing_ receiver = false ->
         handleStrokeInfo msg receiver
         = (false, emit (strokeReceived user (pointOf msg)) receiver).
Proof.
  intros session x y pressure Hsent msg.
  injection Hsent as <- <- <- <-.
  destruct (to_short_wire (px point)) as [Hrx Hx].
  destruct (to_short_wire (py point)) as [Hry Hy].
  subst msg. unfold pointOf. cbn [px py si_x si_y].
  split; [reflexivity|]. split; [exact Hx|]. split; [exact Hy|].
  split; [exact Hrx|]. split; [exact Hry|].
  intros receiver Hlive. unfold handleStrokeInfo. now rewrite Hlive.
Qed.

(** X11.  A lock request made with [lockUser], once it comes back as a
    session event, sets the lock flag of that user to the requested value
    at every member that knows the user, and announces it; asked for the
    null user, it sets the session lock instead. *)
Theorem lock_request_round_trip null_user id lock sender receiver :
  forall session action target,
    lockUser id lock sender = OutSessionEvent session action target ->
    let msg := {| sev_action := action; sev_target := target |} in
    let receiver' := handleSessionEvent null_user msg receiver in
    session = s_id (info_ sender)
    /\ (id <> null_user ->
        forall u, users_ receiver !! id = Some u ->
          users_ receiver' !! id = Some (setLocked lock u)
          /\ lock_ receiver' = lock_ receiver
          /\ trace receiver' = trace receiver ++ [Emit (userLocked id lock)])
    /\ (id = null_user ->
        users_ receiver' = users_ receiver
        /\ lock_ receiver' = lock
        /\ trace receiver' = trace receiver ++ [Emit (sessionLocked lock)]).
Proof.
  intros session action target Hsent msg receiver'.
  injection Hsent as <- <- <-. subst receiver' msg.
  split; [reflexivity|]. unfold handleSessionEvent.
  cbn [sev_target sev_action]. split.
  - intros Hnn u Hu. apply Z.eqb_neq in Hnn. rewrite Hnn, Hu.
    cbn [negb andb].
    rewrite bool_decide_eq_true_2 by eauto. cbn [negb].
    destruct lock; cbn [users_ lock_ trace emit record with_users];
      rewrite lookup_alter_eq, Hu; now repeat split.
  - intros ->. rewrite Z.eqb_refl. cbn [negb andb].
    destruct lock; now repeat split.
Qed.

End ClientRunProperties.

(* ================================================================== *)
(** * Properties of the server's runs *)
(* ================================================================== *)

Section ServerRunProperties.

Import Server ServerRuns.

Context `{Qt}.
Context {ServerConfig : Type} `{!ServerConfigOps ServerConfig}.
Context {SessionServer : Type} `{!SessionServerOps SessionServer}.

Local Abbreviation MultiServer := (@MultiServer _ ServerConfig SessionServer).
Local Abbreviation Step := (@Step SessionServer).

(** *** The life cycle *)

Lemma stoppedSignals_effect e (s : MultiServer) :
  stoppedSignals (effect e s)
  = (stoppedSignals s + match e with ServerStopped => 1 | _ => 0 end)%nat.
Proof.
  unfold stoppedSignals. simpl. rewrite List.filter_app, length_app.
  now destruct e.
Qed.

Lemma sameCycle_printStatusUpdate (s : MultiServer) :
  sameCycle s (printStatusUpdate s).
Proof.
  unfold sameCycle, printStatusUpdate. rewrite stoppedSignals_effect.
  simpl. repeat split. lia.
Qed.

Lemma sameCycle_newClient (s s' : MultiServer) :
  newClient s = Some s' -> sameCycle s s'.
Proof.
  unfold newClient, sameCycle, isListening.
  destruct (m_server s) as [srv|] eqn:Hsrv; [|discriminate].
  destruct (pending srv) as [|sock rest]; [discriminate|].
  cbn [m_config with_server].
  destruct (isAddressBanned (m_config s) (peerAddress sock));
    intros Hrun; injection Hrun as <-.
  - rewrite stoppedSignals_effect. simpl. repeat split. unfold stoppedSignals.
    simpl. lia.
  - unfold printStatusUpdate. rewrite stoppedSignals_effect. simpl.
    repeat split. unfold stoppedSignals. simpl. lia.
Qed.

(** What [stop] does, by the state it finds. *)
Lemma stop_cases (s s' : MultiServer) :
  stop s = Some s' ->
  (m_state s = RUNNING /\ m_state s' = STOPPING
   /\ stoppedSignals s' = stoppedSignals s /\ isListening s' = false
   /\ totalUsers (m_sessions s') <> 0)
  \/ (m_state s = RUNNING /\ m_state s' = STOPPED
      /\ stoppedSignals s' = S (stoppedSignals s) /\ isListening s' = false
      /\ totalUsers (m_sessions s') = 0)
  \/ (m_state s = STOPPING /\ m_state s' = STOPPED
      /\ stoppedSignals s' = S (stoppedSignals s)
      /\ isListening s' = isListening s
      /\ totalUsers (m_sessions s) = 0)
  \/ (m_state s <> RUNNING /\ s' = s
      /\ (m_state s = STOPPING -> totalUsers (m_sessions s) <> 0)).
Proof.
  unfold stop. intros Hstop.
  destruct (decide (m_state s = RUNNING)) as [Hrun|Hrun].
  - destruct (m_server s) as [srv|] eqn:Hsrv; [|discriminate].
    simpl in Hstop.
    destruct (Z.eqb_spec (totalUsers (stopAll (m_sessions s))) 0) as [Hu|Hu];
      injection Hstop as <-.
    + right. left. rewrite stoppedSignals_effect. unfold isListening.
      simpl. repeat split; auto. unfold stoppedSignals. simpl. lia.
    + left. unfold isListening, stoppedSignals. simpl. repeat split; auto.
  - destruct (decide (m_state s = STOPPING)) as [Hing|Hing].
    + destruct (Z.eqb_spec (totalUsers (m_sessions s)) 0) as [Hu|Hu];
        injection Hstop as <-.
      * right. right. left. rewrite stoppedSignals_effect.
        unfold isListening. simpl. repeat split; auto.
        unfold stoppedSignals. simpl. lia.
      * right. right. right. repeat split; auto.
    + injection Hstop as <-. right. right. right. repeat split; auto.
Qed.

Lemma orderly_sameCycle (s s' : MultiServer) :
  sameCycle s s' -> orderly s -> orderly s'.
Proof.
  intros (Hs & Hn & Hl) [Hsig Hclosed]. unfold orderly.
  rewrite Hs, Hn, Hl. auto.
Qed.

Lemma stop_orderly (s s' : MultiServer) :
  stop s = Some s' -> orderly s ->
  orderly s' /\ (rank (m_state s) <= rank (m_state s'))%nat.
Proof.
  intros Hstop [Hsig Hclosed].
  apply stop_cases in Hstop
    as [(Hs & Hs' & Hn & Hl & _)|[(Hs & Hs' & Hn & Hl & _)
       |[(Hs & Hs' & Hn & Hl & _)|(Hs & -> & _)]]];
    unfold orderly; rewrite ?Hs', ?Hn, ?Hl, ?Hs; simpl;
    rewrite ?Hs in Hsig; simpl in Hsig; rewrite ?Hsig;
    repeat split; auto; try lia.
Qed.

Lemma tryAutoStop_orderly (s s' : MultiServer) :
  tryAutoStop s = Some s' -> orderly s ->
  orderly s' /\ (rank (m_state s) <= rank (m_state s'))%nat.
Proof.
  unfold tryAutoStop.
  destruct (_ && _); [apply stop_orderly|].
  intros Hrun Hord. injection Hrun as <-. split; [exact Hord|lia].
Qed.

Lemma step_orderly (e : Step) (s s' : MultiServer) :
  step e s = Some s' -> orderly s ->
  orderly s' /\ (rank (m_state s) <= rank (m_state s'))%nat.
Proof.
  destruct e as [| | | | |registry]; cbn [step]; intros Hstep Hord.
  - apply sameCycle_newClient in Hstep. pose proof Hstep as (Hs & _).
    split; [eapply orderly_sameCycle; eauto|rewrite Hs; lia].
  - now apply stop_orderly.
  - now apply tryAutoStop_orderly.
  - now apply tryAutoStop_orderly.
  - unfold onUserDisconnected in Hstep.
    pose proof (sameCycle_printStatusUpdate s) as Hp.
    pose proof Hp as (Hs & _).
    assert (Hord1 : orderly (printStatusUpdate s))
      by (eapply orderly_sameCycle; eauto).
    rewrite <- Hs.
    destruct (decide (m_state (printStatusUpdate s) = STOPPING));
      [now apply stop_orderly|now apply tryAutoStop_orderly].
  - injection Hstep as <-. split; [exact Hord|simpl; lia].
Qed.

(** X12.  Over any sequence of calls, slots and registry changes, on a
    server that has said [serverStopped] exactly if it is STOPPED and
    whose listener is closed if it is stopping or stopped: the life cycle
    never moves backwards, [serverStopped] has been emitted once if the
    server is STOPPED at the end and not at all otherwise, and a listener
    closed by a stop is never accepting again. *)
Theorem life_cycle_is_one_way (steps : list Step) : forall s s' : MultiServer,
  orderly s ->
  run steps s = Some s' ->
  (rank (m_state s) <= rank (m_state s'))%nat
  /\ stoppedSignals s' = (if decide (m_state s' = STOPPED) then 1 else 0)%nat
  /\ (m_state s' = STOPPING \/ m_state s' = STOPPED -> isListening s' = false).
Proof.
  induction steps as [|e steps IH]; intros s s' Hord Hrun; cbn [run] in Hrun.
  - injection Hrun as <-. destruct Hord. auto.
  - destruct (step e s) as [s1|] eqn:Hstep; [|discriminate].
    destruct (step_orderly e s s1 Hstep Hord) as [Hord1 Hrank].
    destruct (IH s1 s' Hord1 Hrun) as (Hrank' & Hsig & Hclosed).
    split; [lia|]. now split.
Qed.

(** X13.  A stop of a running server closes the listener and asks the
    registry to stop all sessions.  If the registry still counts users,
    the server waits in STOPPING without a signal; the [userDisconnected]
    slot then completes the stop, with [serverStopped], exactly when the
    registry counts no user any more, and otherwise only reports the
    status. *)
Theorem stop_waits_for_the_last_user (s : MultiServer) srv :
  m_state s = RUNNING ->
  m_server s = Some srv ->
  exists s1,
    stop s = Some s1
    /\ m_sessions s1 = stopAll (m_sessions s)
    /\ m_server s1 = Some (close srv)
    /\ (totalUsers (stopAll (m_sessions s)) = 0 ->
        m_state s1 = STOPPED /\ effects s1 = effects s ++ [ServerStopped])
    /\ (totalUsers (stopAll (m_sessions s)) <> 0 ->
        m_state s1 = STOPPING /\ effects s1 = effects s
        /\ forall registry,
             let s2 := with_sessions registry s1 in
             let status :=
               NotifyStatus (totalUsers registry) (sessionCount registry) in
             exists s3,
               onUserDisconnected s2 = Some s3
               /\ m_sessions s3 = registry
               /\ (totalUsers registry = 0 ->
                   m_state s3 = STOPPED
                   /\ effects s3 = effects s ++ [status; ServerStopped])
               /\ (totalUsers registry <> 0 ->
                   m_state s3 = STOPPING
                   /\ effects s3 = effects s ++ [status])).
Proof.
  intros Hrun Hsrv. unfold stop.
  destruct (decide (m_state s = RUNNING)) as [_|]; [|contradiction].
  rewrite Hsrv. simpl.
  destruct (Z.eqb_spec (totalUsers (stopAll (m_sessions s))) 0) as [Hu|Hu].
  - eexists. split; [reflexivity|]. simpl.
    repeat split; auto; contradiction.
  - eexists. split; [reflexivity|]. simpl.
    split; [reflexivity|]. split; [reflexivity|].
    split; [contradiction|]. intros _.
    split; [reflexivity|]. split; [reflexivity|].
    intros registry. unfold onUserDisconnected, stop. simpl.
    destruct (Z.eqb_spec (totalUsers registry) 0) as [Hr|Hr].
    + eexists. split; [reflexivity|]. simpl.
      repeat split; auto; try contradiction.
      now rewrite <- app_assoc.
    + eexists. split; [reflexivity|]. simpl.
      repeat split; auto; contradiction.
Qed.

(** *** The JSON API *)

Lemma with_config_same (s : MultiServer) : with_config (m_config s) s = s.
Proof. now destruct s. Qed.

(** X14.  A call on the [server] or [banlist] resource, or on a path that
    names no resource, that is not answered [Ok] leaves the server exactly
    as it was.  The one exception is a [Delete] of a ban entry that the
    database does not find: the store is then whatever [deleteBan] left. *)
Theorem failed_call_changes_nothing method path request (s : MultiServer) :
  fst (popApiPath path) <> "sessions"%string ->
  status (fst (callJsonApi method path request s)) <> Ok ->
  snd (callJsonApi method path request s) = s
  \/ exists entry,
       method = Delete /\ path = ["banlist"%string; entry]
       /\ isDatabase (m_config s) = true
       /\ fst (deleteBan (stringToInt entry) (m_config s)) = false
       /\ snd (callJsonApi method path request s)
          = with_config (snd (deleteBan (stringToInt entry) (m_config s))) s.
Proof.
  unfold callJsonApi. destruct (popApiPath path) as [head tail] eqn:Hpop.
  cbn [fst]. intros Hhead.
  destruct (decide (head = "server"%string)) as [->|_].
  - unfold serverJsonApi. destruct tail; [|intros; now left].
    destruct method; simpl; intros Hst; try (now left); congruence.
  - destruct (decide (head = "sessions"%string)) as [|_]; [contradiction|].
    destruct (decide (head = "banlist"%string)) as [->|_];
      [|intros; now left].
    unfold banlistJsonApi.
    destruct (isDatabase (m_config s)) eqn:Hdb; cbn [negb];
      [|intros; now left].
    destruct tail as [|entry [|more tail]].
    + destruct method; simpl.
      * intros Hst. congruence.
      * destruct (addressIsNull _); [intros; now left|].
        destruct (dateTimeIsNull _); [intros; now left|].
        destruct (addBan _ _ _ _ _). simpl. intros Hst. congruence.
      * intros; now left.
      * intros; now left.
    + destruct method; simpl; try (intros; now left).
      destruct (deleteBan (stringToInt entry) (m_config s)) as [ok c] eqn:Hdel.
      destruct ok; simpl; intros Hst; [congruence|].
      right. exists entry. rewrite Hdel. repeat split.
      destruct path as [|h [|e [|? ?]]]; simpl in Hpop; congruence.
    + intros; now left.
Qed.

Lemma updateSetting_agree request request' (c : ServerConfig) key :
  request !! name key = request' !! name key ->
  updateSetting request c key = updateSetting request' c key.
Proof.
  intros Heq. unfold updateSetting, contains, valueAt. now rewrite Heq.
Qed.

Lemma update_agree request request' keys : forall c : ServerConfig,
  (forall key, request !! name key = request' !! name key) ->
  foldl (updateSetting request) c keys = foldl (updateSetting request') c keys.
Proof.
  induction keys as [|key keys IH]; intros c Heq; [reflexivity|].
  simpl. rewrite (updateSetting_agree request request' c key (Heq key)).
  now apply IH.
Qed.

Lemma update_without_keys request keys : forall c : ServerConfig,
  (forall key, request !! name key = None) ->
  foldl (updateSetting request) c keys = c.
Proof.
  induction keys as [|key keys IH]; intros c Hnone; [reflexivity|].
  simpl. unfold updateSetting at 2, contains. rewrite (Hnone key).
  rewrite bool_decide_eq_false_2 by (now intros [? ?]). now apply IH.
Qed.

(** X15.  An [Update] on [server] looks at the request only under the
    names of the settings: two requests that agree there get the same
    answer and leave the same configuration, whatever else they hold.  A
    request with none of the names, the empty one for instance, writes
    nothing and is answered like a [Get]. *)
Theorem unrecognised_keys_are_ignored request request' (s : MultiServer) :
  (forall key, request !! name key = request' !! name key) ->
  callJsonApi Update ["server"%string] request s
  = callJsonApi Update ["server"%string] request' s
  /\ ((forall key, request !! name key = None) ->
      callJsonApi Update ["server"%string] request s
      = callJsonApi Get ["server"%string] request s
      /\ snd (callJsonApi Update ["server"%string] request s) = s).
Proof.
  intros Heq. unfold callJsonApi. cbn [popApiPath].
  destruct (decide ("server"%string = "server"%string)) as [_|]; [|done].
  unfold serverJsonApi. split.
  - now rewrite (update_agree request request' settings (m_config s) Heq).
  - intros Hnone.
    rewrite (update_without_keys request settings (m_config s) Hnone).
    split; [reflexivity|]. apply with_config_same.
Qed.

(** *** The queue of pending connections *)

Lemma kicked_effect e (s : MultiServer) :
  kicked (effect e s)
  = kicked s ++ match e with DisconnectKick c _ => [c] | _ => [] end.
Proof. unfold kicked. simpl. rewrite flat_map_app. simpl. now rewrite app_nil_r. Qed.

Lemma admitAll_run (socks : list QTcpSocket) : forall (s : MultiServer) l,
  m_server s = Some {| listening := l; pending := socks |} ->
  exists s',
    admitAll (length socks) s = Some s'
    /\ m_server s' = Some {| listening := l; pending := [] |}
    /\ kicked s' = kicked s ++ refused (m_config s) socks
    /\ m_sessions s'
       = foldl (fun r c => addClient c r) (m_sessions s)
           (welcomed (m_config s) socks)
    /\ m_config s' = m_config s
    /\ m_state s' = m_state s
    /\ stoppedSignals s' = stoppedSignals s.
Proof.
  induction socks as [|sock rest IH]; intros s l Hsrv.
  - exists s. simpl. rewrite app_nil_r. auto 10.
  - cbn [length admitAll]. unfold newClient. rewrite Hsrv.
    cbn [pending listening m_config with_server].
    unfold refused, welcomed. cbn [List.filter].
    destruct (isAddressBanned (m_config s) (peerAddress sock)) eqn:Hban;
      cbn [negb fmap list_fmap].
    + match goal with
      | |- context [admitAll _ ?t] => set (s1 := t)
      end.
      destruct (IH s1 l eq_refl) as (s' & Hrun & Hs & Hk & Hr & Hc & Hst & Hn).
      exists s'. split; [exact Hrun|]. split; [exact Hs|].
      split; [rewrite Hk; subst s1; rewrite kicked_effect;
              now rewrite <- app_assoc|].
      split; [exact Hr|]. split; [exact Hc|]. split; [exact Hst|].
      rewrite Hn. subst s1. rewrite stoppedSignals_effect.
      unfold stoppedSignals. simpl. lia.
    + match goal with
      | |- context [admitAll _ ?t] => set (s1 := t)
      end.
      destruct (IH s1 l eq_refl) as (s' & Hrun & Hs & Hk & Hr & Hc & Hst & Hn).
      exists s'. split; [exact Hrun|]. split; [exact Hs|].
      split; [rewrite Hk; subst s1; unfold printStatusUpdate;
              rewrite kicked_effect; now rewrite app_nil_r|].
      split; [exact Hr|]. split; [exact Hc|]. split; [exact Hst|].
      rewrite Hn. subst s1. unfold printStatusUpdate.
      rewrite stoppedSignals_effect. unfold stoppedSignals. simpl. lia.
Qed.

(** X16.  Handling the pending connections one call at a time empties
    the queue in its order: the peers with a banned address are kicked,
    in that order, the others are handed to the registry, in that order,
    and neither the configuration nor the life cycle moves. *)
Theorem pending_connections_in_order (s : MultiServer) srv :
  m_server s = Some srv ->
  exists s',
    admitAll (length (pending srv)) s = Some s'
    /\ m_server s' = Some {| listening := listening srv; pending := [] |}
    /\ kicked s' = kicked s ++ refused (m_config s) (pending srv)
    /\ m_sessions s'
       = foldl (fun r c => addClient c r) (m_sessions s)
           (welcomed (m_config s) (pending srv))
    /\ m_config s' = m_config s
    /\ m_state s' = m_state s
    /\ stoppedSignals s' = stoppedSignals s.
Proof.
  intros Hsrv. apply admitAll_run. rewrite Hsrv. now destruct srv.
Qed.

End ServerRunProperties.

(** *** The runs of the client on the scenario *)

Section ClientRunScenario.

Import Client ClientRuns Scenario RunScenario.

Local Abbreviation receive := (receive 0 (fun _ => false)).
Local Abbreviation receiveAll := (receiveAll 0 (fun _ => false)).

Lemma upload_sends_the_raster_witness :
  let R := [x01; x02; x03] in
  Z.of_nat (length R) < 2 ^ 31
  /\ exists st' events,
       upload R (chunkCount (length R)) joiner = Some st'
       /\ trace st' = trace joiner ++ events
       /\ length (sentChunks events) = chunkCount (length R)
       /\ slices R 0 (sentChunks events)
       /\ concat (r_data <$> sentChunks events) = R
       /\ Forall (fun chunk => r_length chunk <= 4096
                               /\ r_session_id chunk = s_id (info_ joiner))
                 (sentChunks events)
       /\ raster_ st' = [] /\ rasteroffset_ st' = 0
       /\ isUploading st' = false
       /\ bufferdrawing_ st' = bufferdrawing_ joiner
       /\ drawbuffer_ st' = drawbuffer_ joiner.
Proof.
  intros R.
  assert (HR : Z.of_nat (length R) < 2 ^ 31) by reflexivity.
  split; [exact HR|]. exact (upload_sends_the_raster R joiner HR).
Defined.

Example upload_of_5000_bytes :
  (fun st => (fun c => (r_offset c, r_length c, r_size c))
               <$> sentChunks (trace st))
    <$> upload (repeat x2a 5000) 2 joiner
  = Some [(0, 4096, 5000); (4096, 904, 5000)].
Proof. vm_compute. reflexivity. Qed.


(** X2 on the two halves of a raster of two bytes. *)
Lemma download_reassembles_witness :
  let R := [x2a; x2b] in
  let chunks := [firstHalf; secondHalf] in
  slices R 0 chunks
  /\ exists st',
       receiveChunks 2 chunks waiting = Some st'
       /\ raster_ st' = R
       /\ bufferdrawing_ st' = false
       /\ drawbuffer_ st' = []
       /\ trace st'
          = trace waiting ++ (progressOf <$> chunks)
                          ++ replay (drawbuffer_ waiting)
       /\ exists init final,
            chunks = init ++ [final]
            /\ forallb (fun chunk => negb (completes chunk)) init = true
            /\ completes final = true.
Proof.
  intros R chunks.
  assert (Hs : slices R 0 chunks)
    by (cbn; repeat split; lia).
  split; [exact Hs|].
  apply (download_reassembles R chunks waiting 2);
    [discriminate | reflexivity | exact Hs | cbn; lia].
Defined.

(** X3 on a raster of three bytes, sent by one member to another that
    has two commands queued. *)
Lemma snapshot_round_trip_witness :
  let R := [x01; x02; x03] in
  exists provider' events joiner',
    upload R (chunkCount (length R)) joiner = Some provider'
    /\ trace provider' = trace joiner ++ events
    /\ receiveChunks 2 (sentChunks events) waiting = Some joiner'
    /\ raster_ joiner' = R
    /\ bufferdrawing_ joiner' = false
    /\ drawbuffer_ joiner' = []
    /\ trace joiner'
       = trace waiting ++ (progressOf <$> sentChunks events)
                       ++ replay (drawbuffer_ waiting).
Proof.
  intros R.
  apply (snapshot_round_trip R joiner waiting 2);
    [discriminate | reflexivity | cbn; lia].
Defined.

(** A raster of 5000 bytes goes over in two chunks and arrives whole. *)
Example round_trip_of_5000_bytes :
  match upload (repeat x2a 5000) 2 joiner with
  | Some provider' =>
      (fun st => (length (raster_ st), forallb (Byte.eqb x2a) (raster_ st),
                  bufferdrawing_ st, applied (trace st)))
        <$> receiveChunks 2 (sentChunks (trace provider')) waiting
  | None => None
  end
  = Some (5000%nat, true, false, signalOf <$> [strokeOfB 10 10; endOfB]).
Proof. vm_compute. reflexivity. Qed.

(** X4 on the first half of the raster. *)
Lemma full_progress_only_on_completion_witness :
  exists st' percent rest,
    handleRaster 2 firstHalf waiting = Some st'
    /\ trace st' = trace waiting ++ Emit (rasterReceived percent) :: rest
    /\ (completes firstHalf = true ->
        percent = 100 /\ rest = replay (drawbuffer_ waiting)
        /\ bufferdrawing_ st' = false)
    /\ (completes firstHalf = false ->
        0 <= percent <= 98 /\ rest = []
        /\ bufferdrawing_ st' = bufferdrawing_ waiting
        /\ drawbuffer_ st' = drawbuffer_ waiting).
Proof.
  apply (full_progress_only_on_completion 2 firstHalf waiting). cbn. lia.
Defined.


(** X5 on the whole scenario. *)
Lemma drawing_commands_conserved_witness :
  exists st',
    receiveAll 3 everything joiner = Some st'
    /\ applied (trace st') ++ (signalOf <$> drawbuffer_ st')
       = applied (trace joiner)
         ++ (signalOf <$> drawbuffer_ joiner ++ drawingOps everything)
    /\ released (trace st') ++ drawbuffer_ st'
       = released (trace joiner) ++ drawbuffer_ joiner ++ drawingOps everything
    /\ (bufferdrawing_ st' = false ->
        applied (trace st')
        = applied (trace joiner)
          ++ (signalOf <$> drawbuffer_ joiner ++ drawingOps everything)
        /\ released (trace st')
           = released (trace joiner) ++ drawbuffer_ joiner
             ++ drawingOps everything).
Proof.
  assert (Hrun : receiveAll 3 everything joiner
                 = Some (default joiner (receiveAll 3 everything joiner)))
    by (vm_compute; reflexivity).
  assert (Htidy : tidy joiner) by (intros _; reflexivity).
  eexists. split; [exact Hrun|].
  exact (drawing_commands_conserved 0 (fun _ => false) 3 everything joiner _
           Htidy Hrun).
Defined.

Example everything_applied_in_order :
  (fun st => (applied (trace st), released (trace st)))
    <$> receiveAll 3 everything joiner
  = Some (signalOf <$> [strokeOfB 10 10; strokeOfB 65535 12; endOfB;
                        strokeOfB 1 2],
          [strokeOfB 10 10; strokeOfB 65535 12; endOfB; strokeOfB 1 2]).
Proof. vm_compute. reflexivity. Qed.


(** X6 on the scenario: D joins and is kicked. *)
Lemma join_then_departure_witness :
  let st1 := handleUserInfo (fun _ => false) joinOfD joiner in
  let st2 := handleUserInfo (fun _ => false) kickOfD st1 in
  user 7 st1 = Some {| u_name := "D"; u_id := 7; u_locked := false |}
  /\ users_ st2 = users_ joiner
  /\ hasUser 7 st2 = false
  /\ trace st2 = trace joiner ++ [Emit (userJoined 7); Emit (userLeft 7)]
  /\ usersessions_ st2 = delete 7 (usersessions_ joiner).
Proof.
  apply (join_then_departure (fun _ => false) joinOfD kickOfD joiner);
    reflexivity.
Defined.

(** X7 on the scenario: after the comings D is a member. *)
Lemma membership_follows_user_events_witness :
  exists st',
    receiveAll 0 comings joiner = Some st'
    /\ hasUser 7 st' = memberAfter 7 (hasUser 7 joiner) comings.
Proof.
  assert (Hrun : receiveAll 0 comings joiner
                 = Some (default joiner (receiveAll 0 comings joiner)))
    by (vm_compute; reflexivity).
  eexists. split; [exact Hrun|].
  exact (membership_follows_user_events 0 (fun _ => false) 0 comings 7
           joiner _ Hrun).
Defined.

Example D_is_back :
  hasUser 7 <$> receiveAll 0 comings joiner = Some true
  /\ hasUser 7 <$> receiveAll 0 (take 3 comings) joiner = Some false
  /\ hasUser 7 <$> receiveAll 0 (take 2 comings) joiner = Some true.
Proof. vm_compute. auto. Qed.

(** X9 on the scenario: nothing C receives during the transfer is a
    session event. *)
Lemma only_session_events_change_owner_and_lock_witness :
  exists st',
    receiveAll 0 duringTransfer joiner = Some st'
    /\ info_ st' = info_ joiner /\ lock_ st' = lock_ joiner.
Proof.
  assert (Hrun : receiveAll 0 duringTransfer joiner
                 = Some (default joiner (receiveAll 0 duringTransfer joiner)))
    by (vm_compute; reflexivity).
  eexists. split; [exact Hrun|].
  exact (only_session_events_change_owner_and_lock 0 (fun _ => false) 0
           duringTransfer joiner _ eq_refl Hrun).
Defined.

(** X10 on a point whose first coordinate does not fit. *)
Lemma stroke_coordinates_round_trip_witness :
  let msg := {| si_session_id := 1; si_user_id := 3;
                si_x := 40000; si_y := 65524; si_pressure := 255 |} in
  1 = s_id (info_ joiner)
  /\ (px (pointOf msg) = px farPoint <-> - 2 ^ 15 <= px farPoint < 2 ^ 15)
  /\ (py (pointOf msg) = py farPoint <-> - 2 ^ 15 <= py farPoint < 2 ^ 15)
  /\ - 2 ^ 15 <= px (pointOf msg) < 2 ^ 15
  /\ - 2 ^ 15 <= py (pointOf msg) < 2 ^ 15
  /\ forall receiver,
       bufferdrawing_ receiver = false ->
       handleStrokeInfo msg receiver
       = (false, emit (strokeReceived 3 (pointOf msg)) receiver).
Proof.
  exact (stroke_coordinates_round_trip (fun _ => 255) farPoint joiner 3
           1 40000 65524 255 eq_refl).
Defined.

Example far_point_arrives_wrapped :
  pointOf {| si_session_id := 1; si_user_id := 3;
             si_x := 40000; si_y := 65524; si_pressure := 255 |}
  = {| px := -25536; py := -12; ppressure := over255 255 |}.
Proof. reflexivity. Qed.

(** X11 on the scenario: C asks for B to be locked; the event reaches a
    member that knows B as user 2. *)
Lemma lock_request_round_trip_witness :
  let receiver :=
    handleUserInfo (fun _ => false)
      {| ui_user_id := 2; ui_event := Join; ui_mode := 0; ui_name := "B" |}
      joiner in
  let msg := {| sev_action := Lock; sev_target := 2 |} in
  let receiver' := handleSessionEvent 0 msg receiver in
  1 = s_id (info_ joiner)
  /\ (2 <> 0 ->
      forall u, users_ receiver !! 2 = Some u ->
        users_ receiver' !! 2 = Some (setLocked true u)
        /\ lock_ receiver' = lock_ receiver
        /\ trace receiver' = trace receiver ++ [Emit (userLocked 2 true)])
  /\ (2 = 0 ->
      users_ receiver' = users_ receiver
      /\ lock_ receiver' = true
      /\ trace receiver' = trace receiver ++ [Emit (sessionLocked true)]).
Proof.
  intros receiver.
  exact (lock_request_round_trip 0 2 true joiner receiver 1 Lock 2 eq_refl).
Defined.

End ClientRunScenario.

(** *** The runs of the server on the deployment *)

Section ServerRunDeployment.

Import Server ServerRuns Deployment RunDeployment.

(** X12 on the deployment: the banned peer knocks and the server is
    stopped. *)
Lemma life_cycle_is_one_way_witness :
  orderly (vacant true)
  /\ run [CallNewClient; CallStop] (vacant true) = Some stoppedEarly
  /\ (rank (m_state (vacant true)) <= rank (m_state stoppedEarly))%nat
  /\ stoppedSignals stoppedEarly
     = (if decide (m_state stoppedEarly = STOPPED) then 1 else 0)%nat
  /\ (m_state stoppedEarly = STOPPING \/ m_state stoppedEarly = STOPPED ->
      isListening stoppedEarly = false).
Proof.
  assert (Hord : orderly (vacant true)).
  { split; [reflexivity|]. intros [Hs|Hs]; discriminate. }
  assert (Hrun : run [CallNewClient; CallStop] (vacant true)
                 = Some stoppedEarly) by reflexivity.
  split; [exact Hord|]. split; [exact Hrun|].
  exact (life_cycle_is_one_way [CallNewClient; CallStop] (vacant true)
           stoppedEarly Hord Hrun).
Defined.

Example the_day :
  (fun s => (m_state s, stoppedSignals s, isListening s))
    <$> run day (vacant true)
  = Some (STOPPED, 1%nat, false)
  /\ (fun s => (m_state s, stoppedSignals s, isListening s))
       <$> run (take 6 day) (vacant true)
     = Some (STOPPING, 0%nat, false).
Proof. vm_compute. auto. Qed.

(** X13 on the deployment: the busy server is stopped. *)
Lemma stop_waits_for_the_last_user_witness :
  let s := busy in
  let srv := {| listening := true; pending := [peer "10.0.0.7"] |} in
  exists s1,
    stop s = Some s1
    /\ m_sessions s1 = stopAll (m_sessions s)
    /\ m_server s1 = Some (close srv)
    /\ (totalUsers (stopAll (m_sessions s)) = 0 ->
        m_state s1 = STOPPED /\ effects s1 = effects s ++ [ServerStopped])
    /\ (totalUsers (stopAll (m_sessions s)) <> 0 ->
        m_state s1 = STOPPING /\ effects s1 = effects s
        /\ forall registry,
             let s2 := with_sessions registry s1 in
             let status :=
               NotifyStatus (totalUsers registry) (sessionCount registry) in
             exists s3,
               onUserDisconnected s2 = Some s3
               /\ m_sessions s3 = registry
               /\ (totalUsers registry = 0 ->
                   m_state s3 = STOPPED
                   /\ effects s3 = effects s ++ [status; ServerStopped])
               /\ (totalUsers registry <> 0 ->
                   m_state s3 = STOPPING
                   /\ effects s3 = effects s ++ [status])).
Proof.
  intros s srv. exact (stop_waits_for_the_last_user s srv eq_refl eq_refl).
Defined.

(** X14 on the deployment: the ban until "tomorrow". *)
Lemma failed_call_changes_nothing_witness :
  let path := ["banlist"%string] in
  snd (callJsonApi Create path banUntilTomorrow (vacant true)) = vacant true
  \/ exists entry,
       Create = Delete /\ path = ["banlist"%string; entry]
       /\ isDatabase (m_config (vacant true)) = true
       /\ fst (deleteBan (stringToInt entry) (m_config (vacant true))) = false
       /\ snd (callJsonApi Create path banUntilTomorrow (vacant true))
          = with_config
              (snd (deleteBan (stringToInt entry) (m_config (vacant true))))
              (vacant true).
Proof.
  intros path.
  apply (failed_call_changes_nothing Create path banUntilTomorrow (vacant true)).
  - discriminate.
  - vm_compute. discriminate.
Defined.

(** X15 on the deployment: a colour is no setting. *)
Lemma unrecognised_keys_are_ignored_witness :
  callJsonApi Update ["server"%string] retitleAndMore busy
  = callJsonApi Update ["server"%string] retitle busy
  /\ ((forall key, retitleAndMore !! name key = None) ->
      callJsonApi Update ["server"%string] retitleAndMore busy
      = callJsonApi Get ["server"%string] retitleAndMore busy
      /\ snd (callJsonApi Update ["server"%string] retitleAndMore busy) = busy).
Proof.
  apply (unrecognised_keys_are_ignored retitleAndMore retitle busy).
  intros key. destruct key; vm_compute; reflexivity.
Defined.

(** X16 on the deployment: three peers wait, the second one banned. *)
Lemma pending_connections_in_order_witness :
  let srv := {| listening := true;
                pending := [peer "10.0.0.7"; peer "10.0.0.66"; peer "10.0.0.8"] |} in
  exists s',
    admitAll (length (pending srv)) crowded = Some s'
    /\ m_server s' = Some {| listening := listening srv; pending := [] |}
    /\ kicked s' = kicked crowded ++ refused (m_config crowded) (pending srv)
    /\ m_sessions s'
       = foldl (fun r c => addClient c r) (m_sessions crowded)
           (welcomed (m_config crowded) (pending srv))
    /\ m_config s' = m_config crowded
    /\ m_state s' = m_state crowded
    /\ stoppedSignals s' = stoppedSignals crowded.
Proof.
  intros srv. exact (pending_connections_in_order crowded srv eq_refl).
Defined.

Example the_crowd :
  (fun s => (peerAddress <$> (socket <$> kicked s),
             peerAddress <$> (socket <$> lobby (m_sessions s))))
    <$> admitAll 3 crowded
  = Some ([Some "10.0.0.66"%string],
          [Some "10.0.0.7"%string; Some "10.0.0.8"%string]).
Proof. vm_compute. reflexivity. Qed.

End ServerRunDeployment.
